(** * SME compliance assistant: query orchestration, confidence scoring and
      performance monitoring

    A shallow embedding of [src/core/performance_monitor.py] and of the query
    path of [src/core/rag_system.py], followed by the properties the
    specification states about them.

    Conventions of the embedding.
    - Python [int] is [Z].
    - Python [float] is an exact rational [Q].  The scorer only divides a
      length by 3, adds tenths and rounds to hundredths; the lemma
      [RagFacts.score_margin] shows that every score it can reach sits at
      least a sixth of a hundredth away from a rounding boundary, and the
      module [Binary64] replays the arithmetic on IEEE binary64 numbers
      ([Binary64Facts.binary64_confidence]).
    - [time.time()] is a reading in seconds ([Q]); [datetime.now()] is a
      number of microseconds ([Z]), the resolution of [datetime].  Readings
      are inputs of the operations that take them.
    - Python [str] is [string]; one [ascii] stands for one character.
    - An exception (an instance of [Exception]) is a value of type [Fault];
      code that can raise returns [Fault + A].
    - The pictograph that starts most printed lines is left out of the
      line; the timestamp the logger adds to each record is left out of
      the record. *)

From Stdlib Require Import ZArith QArith Qround Qminmax List String Ascii
  Bool Lia Lqa DecimalString PeanoNat PrimFloat FloatOps SpecFloat Uint63
  Permutation.
Import ListNotations.

Local Open Scope string_scope.
Local Open Scope Z_scope.

(** ** Python built-ins used by the two modules *)

Module Py.

(** An exception instance: [type(e).__name__] and [str(e)]. *)
Record Fault : Type := mkFault { error_type : string; error_message : string }.

(** [l[-n:]] for [n > 0]: the last [n] elements, all of them when there are
    fewer. *)
Definition last_n {A : Type} (n : nat) (l : list A) : list A :=
  skipn (List.length l - n) l.

(** [x < y] on floats. *)
Definition Qltb (x y : Q) : bool := negb (Qle_bool y x).

(** [sum(l)] over floats. *)
Definition sum (l : list Q) : Q := fold_left Qplus l 0%Q.

(** [len(l)] as a Python int. *)
Definition len {A : Type} (l : list A) : Z := Z.of_nat (List.length l).

(** [str(n)] for an int. *)
Definition str_of_int (n : Z) : string := NilZero.string_of_int (Z.to_int n).

(** [str.lower()] on the characters A..Z. *)
Definition lower_char (c : ascii) : ascii :=
  let n := nat_of_ascii c in
  if ((65 <=? n) && (n <=? 90))%nat then ascii_of_nat (n + 32) else c.

Fixpoint lower (s : string) : string :=
  match s with
  | EmptyString => EmptyString
  | String c rest => String (lower_char c) (lower rest)
  end.

(** [sub in s] for two strings. *)
Fixpoint contains (sub s : string) : bool :=
  String.prefix sub s ||
  match s with
  | EmptyString => false
  | String _ rest => contains sub rest
  end.

(** [s[:n]]. *)
Definition take (n : nat) (s : string) : string := String.substring 0 n s.

(** [str.isspace()] on one character of the Latin-1 range. *)
Definition is_space (c : ascii) : bool :=
  let n := nat_of_ascii c in
  ((9 <=? n) && (n <=? 13) || (28 <=? n) && (n <=? 32)
   || (n =? 133) || (n =? 160))%nat.

Fixpoint lstrip (s : string) : string :=
  match s with
  | EmptyString => EmptyString
  | String c rest => if is_space c then lstrip rest else s
  end.

Fixpoint rstrip (s : string) : string :=
  match s with
  | EmptyString => EmptyString
  | String c rest =>
      match rstrip rest with
      | EmptyString => if is_space c then EmptyString else String c EmptyString
      | r => String c r
      end
  end.

(** [s.strip()]. *)
Definition strip (s : string) : string := rstrip (lstrip s).

(** [sep.join(parts)]. *)
Definition join (sep : string) (parts : list string) : string :=
  String.concat sep parts.

(** [enumerate(l)], counting from [start]. *)
Fixpoint enumerate_from {A : Type} (start : nat) (l : list A) : list (nat * A) :=
  match l with
  | [] => []
  | x :: rest => (start, x) :: enumerate_from (S start) rest
  end.

Definition enumerate {A : Type} (l : list A) : list (nat * A) :=
  enumerate_from 0 l.

(** Round a rational to the nearest integer, ties to the even one. *)
Definition round_half_even (x : Q) : Z :=
  let f := Qfloor x in
  match Qcompare (x - inject_Z f) (1 # 2) with
  | Lt => f
  | Gt => f + 1
  | Eq => if Z.even f then f else f + 1
  end.

(** [round(x, ndigits)] on a float: the multiple of [10^-ndigits] closest
    to [x], the even one of the two when [x] is halfway between them. *)
Definition round (x : Q) (ndigits : nat) : Q :=
  let scale := Z.to_pos (10 ^ Z.of_nat ndigits) in
  Qmake (round_half_even (x * inject_Z (Zpos scale))) scale.

End Py.

(** ** [core/performance_monitor.py] *)

Module Monitor.
Import Py.

(** The dataclass [PerformanceMetric]. *)
Record PerformanceMetric : Type := mkMetric {
  timestamp : Z;
  cpu_percent : Q;
  memory_percent : Q;
  metric_active_queries : Z;
  metric_total_queries : Z;
  avg_response_time : Q;
  success_rate : Q
}.

(** The attributes of a [PerformanceMonitor] instance. *)
Record PerformanceMonitor : Type := mkMonitor {
  metrics_history : list PerformanceMetric;
  active_queries : Z;
  total_queries : Z;
  failed_queries : Z;
  response_times : list Q;
  start_time : Z;
  monitoring : bool
}.

Definition set_metrics_history (v : list PerformanceMetric) (self : PerformanceMonitor) :=
  mkMonitor v (active_queries self) (total_queries self) (failed_queries self)
    (response_times self) (start_time self) (monitoring self).

Definition set_active_queries (v : Z) (self : PerformanceMonitor) :=
  mkMonitor (metrics_history self) v (total_queries self) (failed_queries self)
    (response_times self) (start_time self) (monitoring self).

Definition set_total_queries (v : Z) (self : PerformanceMonitor) :=
  mkMonitor (metrics_history self) (active_queries self) v (failed_queries self)
    (response_times self) (start_time self) (monitoring self).

Definition set_failed_queries (v : Z) (self : PerformanceMonitor) :=
  mkMonitor (metrics_history self) (active_queries self) (total_queries self) v
    (response_times self) (start_time self) (monitoring self).

Definition set_response_times (v : list Q) (self : PerformanceMonitor) :=
  mkMonitor (metrics_history self) (active_queries self) (total_queries self)
    (failed_queries self) v (start_time self) (monitoring self).

Definition set_monitoring (v : bool) (self : PerformanceMonitor) :=
  mkMonitor (metrics_history self) (active_queries self) (total_queries self)
    (failed_queries self) (response_times self) (start_time self) v.

(** [__init__]; [now] is the reading of [datetime.now()]. *)
Definition init (now : Z) : PerformanceMonitor :=
  mkMonitor [] 0 0 0 [] now true.

(** [timedelta(hours=1)] in microseconds. *)
Definition one_hour : Z := 3600 * 1000000.

(** [sum(self.response_times[-10:]) / max(len(self.response_times[-10:]), 1)],
    as an exact rational: the binary64 sum and quotient of the code can
    differ from it in the last place (ten times 0.1 average to
    0.09999999999999999), so no statement below is about this value. *)
Definition recent_average (self : PerformanceMonitor) : Q :=
  (sum (last_n 10 (response_times self))
   / inject_Z (Z.max (len (last_n 10 (response_times self))) 1))%Q.

(** [(self.total_queries - self.failed_queries) / max(self.total_queries, 1)] *)
Definition current_success_rate (self : PerformanceMonitor) : Q :=
  (inject_Z (total_queries self - failed_queries self)
   / inject_Z (Z.max (total_queries self) 1))%Q.

(** What one pass through the body of the [while] loop of
    [_collect_metrics] ends with: a sleep of so many seconds, after printing
    a message in the [except] branch, or the fault of that [print], which
    leaves the loop. *)
Inductive Pass : Type :=
| Slept (seconds : Z) (printed : option string)
| Escaped (e : Fault).

(** One pass of the loop body.  [now1] and [now2] are the two readings of
    [datetime.now()], [cpu] and [mem] what [psutil] answers, [out] the fault
    of [print], if any. *)
Definition collect_metrics_pass (now1 now2 : Z) (cpu mem : Fault + Q)
    (out : option Fault) (self : PerformanceMonitor) : PerformanceMonitor * Pass :=
  let handler (e : Fault) :=
    match out with
    | Some e' => (self, Escaped e')
    | None =>
        (self, Slept 60 (Some ("Performance monitoring error: " ++ error_message e)))
    end in
  match cpu with
  | inl e => handler e
  | inr c =>
      match mem with
      | inl e => handler e
      | inr m =>
          let metric :=
            mkMetric now1 c m (active_queries self) (total_queries self)
              (recent_average self) (current_success_rate self) in
          let self := set_metrics_history (metrics_history self ++ [metric]) self in
          let cutoff_time := now2 - one_hour in
          let self :=
            set_metrics_history
              (filter (fun m => cutoff_time <? timestamp m) (metrics_history self))
              self in
          (self, Slept 30 None)
      end
  end.

(** The inputs of one pass. *)
Record Tick : Type := mkTick {
  tick_now1 : Z;
  tick_now2 : Z;
  tick_cpu : Fault + Q;
  tick_mem : Fault + Q;
  tick_out : option Fault
}.

(** [_collect_metrics]: the loop, run for as many passes as there are
    inputs. *)
Fixpoint collect_metrics (ticks : list Tick) (self : PerformanceMonitor)
    : PerformanceMonitor :=
  match ticks with
  | [] => self
  | t :: rest =>
      if monitoring self then
        match collect_metrics_pass (tick_now1 t) (tick_now2 t) (tick_cpu t)
                (tick_mem t) (tick_out t) self with
        | (self', Slept _ _) => collect_metrics rest self'
        | (self', Escaped _) => self'
        end
      else self
  end.

(** [start_query]; [now] is the reading of [time.time()]. *)
Definition start_query (now : Q) (self : PerformanceMonitor) : Q * PerformanceMonitor :=
  let self := set_active_queries (active_queries self + 1) self in
  (now, self).

(** [end_query]; [now] is the reading of [time.time()]. *)
Definition end_query (now : Q) (start_time : Q) (success : bool)
    (self : PerformanceMonitor) : PerformanceMonitor :=
  let self := set_active_queries (Z.max 0 (active_queries self - 1)) self in
  let self := set_total_queries (total_queries self + 1) self in
  let response_time := (now - start_time)%Q in
  let self := set_response_times (response_times self ++ [response_time]) self in
  let self :=
    if negb success then set_failed_queries (failed_queries self + 1) self
    else self in
  if 100 <? len (response_times self)
  then set_response_times (last_n 100 (response_times self)) self
  else self.

(** [stop_monitoring]. *)
Definition stop_monitoring (self : PerformanceMonitor) : PerformanceMonitor :=
  set_monitoring false self.

(** [str(uptime).split('.')[0]] for a [timedelta] of [us] microseconds. *)
Definition two_digits (n : Z) : string :=
  if n <? 10 then "0" ++ str_of_int n else str_of_int n.

Definition uptime_formatted_of (us : Z) : string :=
  let total_seconds := us / 1000000 in
  let days := total_seconds / 86400 in
  let seconds := total_seconds mod 86400 in
  let hh := seconds / 3600 in
  let mm := (seconds / 60) mod 60 in
  let ss := seconds mod 60 in
  let s := str_of_int hh ++ ":" ++ two_digits mm ++ ":" ++ two_digits ss in
  if days =? 0 then s
  else str_of_int days ++ " day" ++ (if Z.abs days =? 1 then "" else "s") ++ ", " ++ s.

(** The dictionary [get_current_stats] returns. *)
Record Stats : Type := mkStats {
  uptime_seconds : Q;
  uptime_formatted : string;
  stats_total_queries : Z;
  stats_failed_queries : Z;
  stats_success_rate : Q;
  stats_active_queries : Z;
  stats_avg_response_time : Q;
  stats_cpu_percent : Q;
  stats_memory_percent : Q;
  queries_per_minute : Z
}.

(** [[t for t in self.response_times if time.time() - t < 60]]: the clock is
    read once for each element; [time_time i] is the reading for the
    element of index [i]. *)
Fixpoint recent_entries (time_time : nat -> Q) (i : nat) (l : list Q) : list Q :=
  match l with
  | [] => []
  | t :: rest =>
      if Qltb (time_time i - t) 60
      then t :: recent_entries time_time (S i) rest
      else recent_entries time_time (S i) rest
  end.

(** [get_current_stats]; [now] is the reading of [datetime.now()], [cpu] and
    [mem] what [psutil] answers. *)
Definition get_current_stats (now : Z) (time_time : nat -> Q)
    (cpu mem : Fault + Q) (self : PerformanceMonitor) : Fault + Stats :=
  let uptime := now - start_time self in
  match cpu with
  | inl e => inl e
  | inr c =>
      match mem with
      | inl e => inl e
      | inr m =>
          inr (mkStats
                 (inject_Z uptime / 1000000)%Q
                 (uptime_formatted_of uptime)
                 (total_queries self)
                 (failed_queries self)
                 (current_success_rate self)
                 (active_queries self)
                 (recent_average self)
                 c m
                 (match response_times self with
                  | [] => 0
                  | _ => len (recent_entries time_time 0 (response_times self))
                  end))
      end
  end.

(** [get_performance_history]: the last 20 data points. *)
Definition get_performance_history (self : PerformanceMonitor)
    : list PerformanceMetric :=
  last_n 20 (metrics_history self).

(** *** The monitor as a transition system

    The operations that change a monitor, each with the readings it takes.
    A run applies them one after the other: an operation is one step. *)
Inductive Op : Type :=
| OpStartQuery (now : Q)
| OpEndQuery (now : Q) (start_time : Q) (success : bool)
| OpCollect (t : Tick).

Definition step (self : PerformanceMonitor) (op : Op) : PerformanceMonitor :=
  match op with
  | OpStartQuery now => snd (start_query now self)
  | OpEndQuery now st success => end_query now st success self
  | OpCollect t =>
      fst (collect_metrics_pass (tick_now1 t) (tick_now2 t) (tick_cpu t)
             (tick_mem t) (tick_out t) self)
  end.

Definition run (ops : list Op) (self : PerformanceMonitor) : PerformanceMonitor :=
  fold_left step ops self.

(** The pass trimmed the history: both [psutil] calls answered. *)
Definition trims (t : Tick) : bool :=
  match tick_cpu t, tick_mem t with
  | inr _, inr _ => true
  | _, _ => false
  end.

(** The reading [datetime.now()] of the most recent trim of a run. *)
Fixpoint last_trim_from (acc : option Z) (ops : list Op) : option Z :=
  match ops with
  | [] => acc
  | OpCollect t :: rest =>
      last_trim_from (if trims t then Some (tick_now2 t) else acc) rest
  | _ :: rest => last_trim_from acc rest
  end.

Definition last_trim (ops : list Op) : option Z := last_trim_from None ops.

(** What the specification asks of the count in the snapshot: the queries
    of a run whose [end_query] came within the 60 seconds before [now]. *)
Definition completed_within_last_minute (now : Q) (ops : list Op) : Z :=
  len (filter (fun op =>
                 match op with
                 | OpEndQuery t _ _ =>
                     Qle_bool t now && Qltb (now - t) 60
                 | _ => false
                 end) ops).

End Monitor.

(** ** [core/rag_system.py]: the query path of [ComplianceRAGSystem] *)

Module Rag.
Import Py.

(** A LangChain [Document]: its text and its metadata dictionary. *)
Record Document : Type := mkDocument {
  page_content : string;
  metadata : list (string * string)
}.

(** *** [_prepare_context] *)

(** The loop of [_prepare_context]: [context_parts] grows by one label and
    text for each document. *)
Definition prepare_context_parts (documents : list Document) : list string :=
  fold_left
    (fun context_parts (entry : nat * Document) =>
       let (i, doc) := entry in
       let label := "Source " ++ str_of_int (Z.of_nat i + 1) ++ ": " in
       (context_parts ++ [(label ++ page_content doc)%string])%list)
    (enumerate documents) [].

Definition newline : string := String (ascii_of_nat 10) EmptyString.

Definition prepare_context (documents : list Document) : string :=
  join (newline ++ newline) (prepare_context_parts documents).

(** *** [_calculate_confidence] *)

Definition compliance_keywords : list string :=
  ["gst"; "tax"; "return"; "filing"; "deadline"; "penalty"; "rate"].

(** The two nested loops that accumulate [keyword_bonus]. *)
Definition keyword_bonus_of (documents : list Document) (question_lower : string) : Q :=
  fold_left
    (fun keyword_bonus doc =>
       let doc_lower := lower (page_content doc) in
       fold_left
         (fun keyword_bonus keyword =>
            if contains keyword question_lower && contains keyword doc_lower
            then (keyword_bonus + (1 # 10))%Q
            else keyword_bonus)
         compliance_keywords keyword_bonus)
    documents 0%Q.

(** The value handed to [round]: [min(base_confidence + keyword_bonus, 1.0)]. *)
Definition unrounded_confidence (documents : list Document) (question : string) : Q :=
  let base_confidence := Qmin (inject_Z (len documents) / 3) 1 in
  let question_lower := lower question in
  let keyword_bonus := keyword_bonus_of documents question_lower in
  Qmin (base_confidence + keyword_bonus) 1.

Definition calculate_confidence (documents : list Document) (question : string) : Q :=
  match documents with
  | [] => 0%Q
  | _ => round (unrounded_confidence documents question) 2
  end.

(** *** [_mock_llm_response] *)

Definition dquote : string := String (ascii_of_nat 34) EmptyString.

Definition mock_llm_response (context question : string) : string :=
  "Based on the provided context, here's what I found regarding your question about "
  ++ dquote ++ question ++ dquote ++ ":" ++ newline
  ++ newline
  ++ take 200 context ++ "..." ++ newline
  ++ newline
  ++ "Please note: This is a mock response. For production use, please configure OpenAI API key or install Ollama with a language model."
  ++ newline
  ++ newline
  ++ "Key points from the context:" ++ newline
  ++ "- Information is available in the compliance documents" ++ newline
  ++ "- For detailed advice, please consult with a qualified CA" ++ newline
  ++ "- Always verify current rates and deadlines with official sources".

(** *** The world a query runs in *)

(** [self.llm_type]. *)
Inductive LlmType : Type := openai | ollama | mock.

(** What a query does that can be seen from outside it, in the order it
    happens: calls on the monitor and the logger, lines printed, calls on the
    vector store and the chain, and the three computations of the pipeline
    ([_prepare_context], [_mock_llm_response], [_calculate_confidence]). *)
Inductive Event : Type :=
| EvStartQuery (start_time : Q)
| EvEndQuery (start_time : Q) (success : bool)
| EvLogSystemEvent (event : string) (details : list (string * Z))
| EvLogQuery (query : string) (response_time confidence : Q)
             (sources_count : Z) (success : bool)
| EvLogError (error : Fault) (context : string)
| EvPrint (line : string)
| EvSimilaritySearch (query : string) (k : Z)
| EvPrepareContext
| EvChainRun (context question : string)
| EvMockLlmResponse
| EvCalculateConfidence.

(** What the code does not decide: the clock, the standard output, the
    Chroma store and the LLM chain.  [time_time n] is the [n]-th reading of
    [time.time()]; [stdout n] is the fault of the [n]-th [print], if it
    raises; [vector_store] is [None] as long as no store was loaded. *)
Record Env : Type := mkEnv {
  time_time : nat -> Q;
  stdout : nat -> option Fault;
  vector_store : option (string -> Z -> Fault + list Document);
  llm_type : LlmType;
  chain_run : string -> string -> Fault + string
}.

Record World : Type := mkWorld {
  performance_monitor : Monitor.PerformanceMonitor;
  journal : list Event;
  time_calls : nat;
  print_calls : nat
}.

Definition record (ev : Event) (w : World) : World :=
  mkWorld (performance_monitor w) (journal w ++ [ev]) (time_calls w) (print_calls w).

(** A computation that can raise: it ends with a fault or a value, and
    with the world as it left it. *)
Definition M (A : Type) : Type := World -> (Fault + A) * World.

Definition ret {A : Type} (a : A) : M A := fun w => (inr a, w).

Definition bind {A B : Type} (m : M A) (f : A -> M B) : M B :=
  fun w =>
    match m w with
    | (inl e, w') => (inl e, w')
    | (inr a, w') => f a w'
    end.

Definition raise {A : Type} (e : Fault) : M A := fun w => (inl e, w).

(** [try: m except Exception as e: handler e]. *)
Definition try_except {A : Type} (m : M A) (handler : Fault -> M A) : M A :=
  fun w =>
    match m w with
    | (inl e, w') => handler e w'
    | (inr a, w') => (inr a, w')
    end.

Definition emit (ev : Event) : M unit := fun w => (inr tt, record ev w).

Declare Scope py_scope.
Delimit Scope py_scope with py.
Notation "x <- m ;; k" := (bind m (fun x => k))
  (at level 61, m at next level, right associativity) : py_scope.
Notation "m ;; k" := (bind m (fun _ => k))
  (at level 61, right associativity) : py_scope.
Local Open Scope py_scope.

Section Query.

Variable env : Env.

(** [time.time()]. *)
Definition time_now : M Q :=
  fun w =>
    (inr (time_time env (time_calls w)),
     mkWorld (performance_monitor w) (journal w) (S (time_calls w)) (print_calls w)).

(** [print(line)]. *)
Definition print (line : string) : M unit :=
  fun w =>
    let w' := mkWorld (performance_monitor w) (journal w) (time_calls w)
                (S (print_calls w)) in
    match stdout env (print_calls w) with
    | Some e => (inl e, w')
    | None => (inr tt, record (EvPrint line) w')
    end.

(** [performance_monitor.start_query()]. *)
Definition performance_monitor_start_query : M Q :=
  now <- time_now ;;
  fun w =>
    let (start_time, pm) := Monitor.start_query now (performance_monitor w) in
    (inr start_time,
     record (EvStartQuery start_time)
       (mkWorld pm (journal w) (time_calls w) (print_calls w))).

(** [performance_monitor.end_query(start_time, success)]. *)
Definition performance_monitor_end_query (start_time : Q) (success : bool) : M unit :=
  now <- time_now ;;
  fun w =>
    (inr tt,
     record (EvEndQuery start_time success)
       (mkWorld (Monitor.end_query now start_time success (performance_monitor w))
          (journal w) (time_calls w) (print_calls w))).

(** The three entry points of [core/logger.py]: each formats a record and
    hands it to [logging], whose handlers do not raise. *)
Definition logger_log_system_event (event : string) (details : list (string * Z)) : M unit :=
  emit (EvLogSystemEvent event details).

Definition logger_log_query (query : string) (response_time confidence : Q)
    (sources_count : Z) (success : bool) : M unit :=
  emit (EvLogQuery (take 100 query) response_time confidence sources_count success).

Definition logger_log_error (error : Fault) (context : string) : M unit :=
  emit (EvLogError error context).

(** [ComplianceVectorStore.search] of [core/vector_store.py]. *)
Definition vector_store_search (query : string) (k : Z) : M (list Document) :=
  match vector_store env with
  | None =>
      print "Vector store not initialized" ;;
      ret []
  | Some similarity_search =>
      try_except
        (emit (EvSimilaritySearch query k) ;;
         results <- (fun w => (similarity_search query k, w)) ;;
         print ("Found " ++ str_of_int (len results) ++ " relevant documents") ;;
         ret results)
        (fun e =>
           print ("Search error: " ++ error_message e) ;;
           ret [])
  end.

(** The dictionary [query] returns; [context_used] is only set on the path
    that reaches an answer. *)
Record Outcome : Type := mkOutcome {
  answer : string;
  sources : list (list (string * string));
  confidence : Q;
  response_time : Q;
  context_used : option string
}.

Definition not_found_message : string :=
  "I couldn't find relevant information in the compliance documents. Please try rephrasing your question or consult with a qualified CA.".

Definition failure_message : string :=
  "I encountered an error processing your question. Please try again or contact support.".

(** Step 3 of [query]: the answer. *)
Definition generate (context question : string) : M string :=
  match llm_type env with
  | mock =>
      emit EvMockLlmResponse ;;
      ret (mock_llm_response context question)
  | _ =>
      try_except
        (emit (EvChainRun context question) ;;
         response <- (fun w => (chain_run env context question, w)) ;;
         ret (strip response))
        (fun e =>
           print ("LLM error: " ++ error_message e) ;;
           logger_log_error e "LLM processing" ;;
           emit EvMockLlmResponse ;;
           ret (mock_llm_response context question))
  end.

(** The body of the [try] of [query]. *)
Definition query_body (question : string) (k : Z) (start_time : Q) : M Outcome :=
  logger_log_system_event "query_started"
    [("query_length", Z.of_nat (String.length question))] ;;
  print ("Processing query: " ++ question) ;;
  relevant_docs <- vector_store_search question k ;;
  match relevant_docs with
  | [] =>
      now <- time_now ;;
      let result :=
        mkOutcome not_found_message [] 0%Q (now - start_time)%Q None in
      performance_monitor_end_query start_time false ;;
      logger_log_query question (response_time result) 0%Q 0 false ;;
      ret result
  | _ :: _ =>
      emit EvPrepareContext ;;
      let context := prepare_context relevant_docs in
      answer <- generate context question ;;
      emit EvCalculateConfidence ;;
      let confidence := calculate_confidence relevant_docs question in
      now <- time_now ;;
      let response_time := (now - start_time)%Q in
      let result :=
        mkOutcome answer (map metadata relevant_docs) confidence response_time
          (Some (if (200 <? String.length context)%nat
                 then take 200 context ++ "..."
                 else context)) in
      performance_monitor_end_query start_time true ;;
      logger_log_query question response_time confidence (len relevant_docs) true ;;
      ret result
  end.

(** The [except] branch of [query]. *)
Definition query_handler (question : string) (start_time : Q) (e : Fault) : M Outcome :=
  now <- time_now ;;
  let response_time := (now - start_time)%Q in
  performance_monitor_end_query start_time false ;;
  logger_log_error e ("Query processing failed: " ++ take 50 question) ;;
  ret (mkOutcome failure_message [] 0%Q response_time None).

(** [query]. *)
Definition query (question : string) (k : Z) : M Outcome :=
  start_time <- performance_monitor_start_query ;;
  try_except (query_body question k start_time)
             (query_handler question start_time).

End Query.

End Rag.

(** ** The arithmetic of [_calculate_confidence] on binary64 numbers

    The same computation on the kernel's IEEE 754 binary64 floats, as a
    function of the two numbers it depends on: how many documents there
    are and how many times a tenth is added. *)

Module Binary64.
Import Py.

(** The literal [0.1]: the binary64 number closest to a tenth. *)
Definition tenth : float := 0x1.999999999999ap-4%float.

(** [min(a, b)]: [b] when it is smaller, [a] otherwise. *)
Definition py_min (a b : float) : float :=
  if PrimFloat.ltb b a then b else a.

(** [keyword_bonus += 0.1], so many times. *)
Fixpoint add_tenths (times : nat) (keyword_bonus : float) : float :=
  match times with
  | O => keyword_bonus
  | S n => add_tenths n (keyword_bonus + tenth)%float
  end.

Definition unrounded_confidence (count matches : nat) : float :=
  let base_confidence :=
    py_min (PrimFloat.of_uint63 (Uint63.of_Z (Z.of_nat count)) / 3)%float 1%float in
  let keyword_bonus := add_tenths matches 0%float in
  py_min (base_confidence + keyword_bonus)%float 1%float.

(** The rational a finite binary64 number is. *)
Definition exact (x : float) : option Q :=
  match Prim2SF x with
  | S754_zero _ => Some 0%Q
  | S754_finite negative m e =>
      let magnitude :=
        if 0 <=? e then inject_Z (Zpos m * 2 ^ e)
        else Qmake (Zpos m) (Z.to_pos (2 ^ (- e))) in
      Some (if negative then Qopp magnitude else magnitude)
  | S754_infinity _ | S754_nan => None
  end.

(** [round(x, 2)] rounds the exact value of [x] to hundredths, ties to
    even; the result, in hundredths. *)
Definition rounded_hundredths (x : float) : option Z :=
  match exact x with
  | Some q => Some (round_half_even (q * 100))
  | None => None
  end.

End Binary64.

(** ** Statistics and health: [get_stats] of [core/vector_store.py],
    [get_system_stats] of [core/rag_system.py], [health_check] of
    [api/main.py] *)

Module Service.
Import Py.

#[local] Set Warnings "-register-all".

(** The values the dictionaries of statistics hold. *)
Inductive Value : Type :=
| VStr (s : string)
| VInt (n : Z)
| VBool (b : bool)
| VList (items : list string)
| VDict (entries : list (string * Value)).

(** A dictionary with string keys, in insertion order. *)
Definition Dict : Type := list (string * Value).

Fixpoint lookup (key : string) (d : Dict) : option Value :=
  match d with
  | [] => None
  | (k, v) :: rest => if String.eqb k key then Some v else lookup key rest
  end.

(** [d.get(key, default)]. *)
Definition get (key : string) (default : Value) (d : Dict) : Value :=
  match lookup key d with
  | Some v => v
  | None => default
  end.

(** [d[key]]: a [KeyError] when the key is missing. *)
Definition getitem (key : string) (d : Dict) : Fault + Value :=
  match lookup key d with
  | Some v => inr v
  | None => inl (mkFault "KeyError" ("'" ++ key ++ "'"))
  end.

(** [v[key]] on a value: only a dictionary can be subscripted by a key. *)
Definition subscript (key : string) (v : Value) : Fault + Value :=
  match v with
  | VDict d => getitem key d
  | _ => inl (mkFault "TypeError" "indices must be integers")
  end.

(** [v > 0]. *)
Definition greater_than_zero (v : Value) : Fault + bool :=
  match v with
  | VInt n => inr (0 <? n)
  | VBool b => inr b
  | _ => inl (mkFault "TypeError" "'>' not supported")
  end.

(** [v == 0]. *)
Definition equals_zero (v : Value) : bool :=
  match v with
  | VInt n => n =? 0
  | VBool b => negb b
  | _ => false
  end.

(** The truth value of [v] in an [if]. *)
Definition truthy (v : Value) : bool :=
  match v with
  | VStr s => negb (String.eqb s "")
  | VInt n => negb (n =? 0)
  | VBool b => b
  | VList items => match items with [] => false | _ => true end
  | VDict entries => match entries with [] => false | _ => true end
  end.

(** [ComplianceVectorStore.get_stats].  [vector_store] is [None] as long
    as no store was loaded; otherwise it is what
    [self.vector_store._collection.count()] does. *)
Definition get_stats (vector_store : option (Fault + Z)) (embedding_model : string) : Dict :=
  match vector_store with
  | None => [("status", VStr "not_initialized"); ("document_count", VInt 0)]
  | Some (inr count) =>
      [("status", VStr "ready");
       ("document_count", VInt count);
       ("embedding_model", VStr embedding_model)]
  | Some (inl e) => [("status", VStr "error"); ("error", VStr (error_message e))]
  end.

(** What [get_system_stats] reads of a [ComplianceRAGSystem]. *)
Record RagSystem : Type := mkRagSystem {
  rag_vector_store : option (Fault + Z);
  rag_embedding_model : string;
  rag_llm_type : string
}.

Definition capabilities : list string :=
  ["Document retrieval"; "Semantic search"; "AI-powered responses";
   "Confidence scoring"; "Source attribution"].

(** [ComplianceRAGSystem.get_system_stats]. *)
Definition get_system_stats (self : RagSystem) : Fault + Dict :=
  let vector_stats := get_stats (rag_vector_store self) (rag_embedding_model self) in
  match greater_than_zero (get "document_count" (VInt 0) vector_stats) with
  | inl e => inl e
  | inr system_ready =>
      inr [("vector_store", VDict vector_stats);
           ("llm_type", VStr (rag_llm_type self));
           ("system_ready", VBool system_ready);
           ("capabilities", VList capabilities)]
  end.

(** The pydantic model [SystemStatus] of [api/models.py]. *)
Record SystemStatus : Type := mkSystemStatus {
  status : string;
  document_count : Z;
  status_llm_type : string;
  status_capabilities : list string;
  uptime : string
}.

(** [HTTPException(status_code, detail)]. *)
Record HTTPException : Type := mkHTTPException {
  status_code : Z;
  detail : string
}.

(** The fields of [SystemStatus] are validated when it is built. *)
Definition as_int (v : Value) : Fault + Z :=
  match v with
  | VInt n => inr n
  | VBool b => inr (if b then 1 else 0)
  | _ => inl (mkFault "ValidationError" "value is not a valid integer")
  end.

Definition as_str (v : Value) : Fault + string :=
  match v with
  | VStr s => inr s
  | _ => inl (mkFault "ValidationError" "str type expected")
  end.

Definition as_str_list (v : Value) : Fault + list string :=
  match v with
  | VList items => inr items
  | _ => inl (mkFault "ValidationError" "value is not a valid list")
  end.

Definition and_then {A B : Type} (r : Fault + A) (f : A -> Fault + B) : Fault + B :=
  match r with
  | inl e => inl e
  | inr a => f a
  end.

(** The body of the [try] of [health_check]; [uptime_us] is
    [datetime.now() - app_start_time] in microseconds. *)
Definition health_check_body (rag : RagSystem) (uptime_us : Z) : Fault + SystemStatus :=
  and_then (get_system_stats rag) (fun stats =>
  and_then (getitem "system_ready" stats) (fun ready =>
  and_then
    (if truthy ready then inr "healthy"
     else
       and_then (getitem "vector_store" stats) (fun vector_stats =>
       and_then (subscript "document_count" vector_stats) (fun count =>
       if equals_zero count then inr "degraded" else inr "healthy")))
    (fun status =>
  and_then (getitem "vector_store" stats) (fun vector_stats =>
  and_then (subscript "document_count" vector_stats) (fun count =>
  and_then (getitem "llm_type" stats) (fun llm =>
  and_then (getitem "capabilities" stats) (fun caps =>
  and_then (as_int count) (fun document_count =>
  and_then (as_str llm) (fun llm_type =>
  and_then (as_str_list caps) (fun capabilities =>
  inr (mkSystemStatus status document_count llm_type capabilities
         (Monitor.uptime_formatted_of uptime_us)))))))))))).

(** [get_rag_system] followed by [health_check]: [rag_system] is the
    global of [api/main.py], [None] until the start-up has built it. *)
Definition health_check (rag_system : option RagSystem) (uptime_us : Z)
    : HTTPException + SystemStatus :=
  match rag_system with
  | None => inl (mkHTTPException 503 "RAG system not initialized")
  | Some rag =>
      match health_check_body rag uptime_us with
      | inr response => inr response
      | inl _ => inl (mkHTTPException 503 "System health check failed")
      end
  end.

End Service.

(** ** [core/document_processor.py] *)

Module Processor.
Import Py Service.

(** A [Document] as [create_documents] builds it. *)
Record Chunk : Type := mkChunk {
  chunk_content : string;
  chunk_metadata : Dict
}.

(** [create_documents]; [split_text] is the text splitter. *)
Definition create_documents (split_text : string -> list string)
    (text source : string) : list Chunk :=
  fold_left
    (fun documents (entry : nat * string) =>
       let (i, chunk) := entry in
       let doc :=
         mkChunk chunk
           [("source", VStr source);
            ("chunk_id", VInt (Z.of_nat i));
            ("document_type", VStr "compliance_guide");
            ("language", VStr "en")] in
       (documents ++ [doc])%list)
    (enumerate (split_text text)) [].

(** [load_text_file]; [read_file] is what opening and reading the file
    does. *)
Definition load_text_file (env : Rag.Env) (read_file : string -> Fault + string)
    (file_path : string) : Rag.M string :=
  match read_file file_path with
  | inr text => Rag.ret text
  | inl e =>
      Rag.bind
        (Rag.print env ("Error loading file " ++ file_path ++ ": " ++ error_message e))
        (fun _ => Rag.ret "")
  end.

(** [process_file]. *)
Definition process_file (env : Rag.Env) (read_file : string -> Fault + string)
    (split_text : string -> list string) (file_path : string) : Rag.M (list Chunk) :=
  Rag.bind (Rag.print env ("Processing file: " ++ file_path)) (fun _ =>
  Rag.bind (load_text_file env read_file file_path) (fun text =>
  if String.eqb text "" then Rag.ret []
  else
    let documents := create_documents split_text text file_path in
    Rag.bind
      (Rag.print env ("Created " ++ str_of_int (len documents) ++ " document chunks"))
      (fun _ => Rag.ret documents))).

End Processor.

(** * Properties *)

(** ** Lists and rounding *)

Module PyFacts.
Import Py.

Lemma last_n_split {A : Type} (n : nat) (l : list A) :
  l = (firstn (List.length l - n) l ++ last_n n l)%list.
Proof. unfold last_n. symmetry. apply firstn_skipn. Qed.

Lemma last_n_length {A : Type} (n : nat) (l : list A) :
  List.length (last_n n l) = Nat.min n (List.length l).
Proof. unfold last_n. rewrite length_skipn. lia. Qed.

Lemma last_n_all {A : Type} (n : nat) (l : list A) :
  (List.length l <= n)%nat -> last_n n l = l.
Proof.
  intros H. unfold last_n.
  replace (List.length l - n)%nat with 0%nat by lia. reflexivity.
Qed.

Lemma string_append_assoc (a b c : string) :
  ((a ++ b) ++ c = a ++ (b ++ c))%string.
Proof. induction a as [|x a IH]; cbn; [|rewrite IH]; reflexivity. Qed.

Lemma Qltb_lt (x y : Q) : Qltb x y = true <-> (x < y)%Q.
Proof.
  unfold Qltb. rewrite negb_true_iff. split.
  - intros H. apply Qnot_le_lt. intros Hle.
    apply Qle_bool_iff in Hle. congruence.
  - intros H. destruct (Qle_bool y x) eqn:E; [|reflexivity].
    apply Qle_bool_iff in E. exfalso. exact (Qlt_not_le _ _ H E).
Qed.

End PyFacts.

(** ** The performance monitor *)

Module MonitorFacts.
Import Py PyFacts Monitor.

(** The conjoined invariant of the counters and of the response times. *)
Definition invariant (self : PerformanceMonitor) : Prop :=
  0 <= active_queries self
  /\ failed_queries self <= total_queries self
  /\ (List.length (response_times self) <= 100)%nat.

Lemma end_query_response_times (now st : Q) (success : bool) (self : PerformanceMonitor) :
  response_times (end_query now st success self)
  = last_n 100 (response_times self ++ [(now - st)%Q]).
Proof.
  unfold end_query.
  destruct success; cbn [negb];
    match goal with |- context [if ?c then _ else _] => destruct c eqn:E end;
    cbn; try reflexivity;
    symmetry; apply last_n_all;
    apply Z.ltb_ge in E; unfold len in E; cbn in E; lia.
Qed.

Lemma end_query_fields (now st : Q) (success : bool) (self : PerformanceMonitor) :
  let self' := end_query now st success self in
  active_queries self' = Z.max 0 (active_queries self - 1)
  /\ total_queries self' = total_queries self + 1
  /\ failed_queries self' = failed_queries self + (if success then 0 else 1)
  /\ metrics_history self' = metrics_history self.
Proof.
  unfold end_query.
  destruct success; cbn [negb];
    match goal with |- context [if ?c then _ else _] => destruct c end;
    cbn; repeat split; lia.
Qed.

(** C5. [end_query] lowers [active_queries] by one but not below 0, raises
    [total_queries] by one, raises [failed_queries] by one exactly when
    [success] is false, and appends the elapsed time to [response_times],
    dropping entries from the front, and only those beyond 100. *)
Theorem end_query_spec (now st : Q) (success : bool) (self : PerformanceMonitor) :
  let self' := end_query now st success self in
  active_queries self' = Z.max 0 (active_queries self - 1)
  /\ 0 <= active_queries self'
  /\ total_queries self' = total_queries self + 1
  /\ failed_queries self' = failed_queries self + (if success then 0 else 1)
  /\ (failed_queries self' = failed_queries self + 1 <-> success = false)
  /\ (exists evicted,
        (response_times self ++ [(now - st)%Q] = evicted ++ response_times self')%list
        /\ List.length evicted = (List.length (response_times self) + 1 - 100)%nat)
  /\ metrics_history self' = metrics_history self.
Proof.
  intros self'.
  assert (Hrt := end_query_response_times now st success self).
  fold self' in Hrt.
  destruct (end_query_fields now st success self) as (Ha & Ht & Hf & Hm).
  fold self' in Ha, Ht, Hf, Hm.
  repeat split; try assumption.
  - rewrite Ha. lia.
  - intros H. destruct success; [lia | reflexivity].
  - intros ->. rewrite Hf. reflexivity.
  - exists (firstn (List.length (response_times self ++ [(now - st)%Q]) - 100)
              (response_times self ++ [(now - st)%Q])).
    split.
    + rewrite Hrt. apply last_n_split.
    + rewrite length_firstn, length_app. cbn. lia.
Qed.

Lemma start_query_invariant (now : Q) (self : PerformanceMonitor) :
  invariant self -> invariant (snd (start_query now self)).
Proof. unfold invariant. cbn. intros (Ha & Hf & Hl). repeat split; lia || assumption. Qed.

Lemma end_query_invariant (now st : Q) (success : bool) (self : PerformanceMonitor) :
  invariant self -> invariant (end_query now st success self).
Proof.
  intros (Ha & Hf & Hl).
  destruct (end_query_fields now st success self) as (Ha' & Ht & Hf' & _).
  unfold invariant. rewrite Ha', Ht, Hf', end_query_response_times, last_n_length.
  repeat split.
  - lia.
  - destruct success; lia.
  - lia.
Qed.

Lemma collect_metrics_pass_counters now1 now2 cpu mem out (self : PerformanceMonitor) :
  let self' := fst (collect_metrics_pass now1 now2 cpu mem out self) in
  active_queries self' = active_queries self
  /\ total_queries self' = total_queries self
  /\ failed_queries self' = failed_queries self
  /\ response_times self' = response_times self.
Proof.
  unfold collect_metrics_pass.
  destruct cpu as [e|c]; [destruct out; cbn; auto|].
  destruct mem as [e|m]; [destruct out; cbn; auto|].
  cbn. auto.
Qed.

Lemma step_invariant (op : Op) (self : PerformanceMonitor) :
  invariant self -> invariant (step self op).
Proof.
  destruct op as [now | now st success | t]; cbn [step].
  - apply start_query_invariant.
  - apply end_query_invariant.
  - intros H.
    destruct (collect_metrics_pass_counters (tick_now1 t) (tick_now2 t)
                (tick_cpu t) (tick_mem t) (tick_out t) self) as (Ha & Ht & Hf & Hr).
    unfold invariant. rewrite Ha, Ht, Hf, Hr. exact H.
Qed.

Lemma run_invariant (ops : list Op) (self : PerformanceMonitor) :
  invariant self -> invariant (run ops self).
Proof.
  revert self. induction ops as [|op ops IH]; intros self H; cbn.
  - exact H.
  - apply IH, step_invariant, H.
Qed.

(** C6. Whatever operations are applied to a fresh monitor, in whatever
    order and with whatever readings and success flags, [active_queries]
    is not negative, [failed_queries] does not exceed [total_queries], and
    [response_times] holds at most 100 entries. *)
Theorem monitor_invariant (ops : list Op) (created : Z) :
  let self := run ops (init created) in
  0 <= active_queries self
  /\ failed_queries self <= total_queries self
  /\ (List.length (response_times self) <= 100)%nat.
Proof.
  apply (run_invariant ops (init created)).
  unfold invariant, init. cbn. lia.
Qed.

(** The sample was taken less than one hour before the reading [trim]. *)
Definition fresh_at (trim : option Z) (m : PerformanceMetric) : Prop :=
  exists t, trim = Some t /\ t - timestamp m < one_hour.

Lemma collect_metrics_pass_fresh (t : Tick) (acc : option Z) (self : PerformanceMonitor) :
  Forall (fresh_at acc) (metrics_history self) ->
  Forall (fresh_at (if trims t then Some (tick_now2 t) else acc))
    (metrics_history
       (fst (collect_metrics_pass (tick_now1 t) (tick_now2 t) (tick_cpu t)
               (tick_mem t) (tick_out t) self))).
Proof.
  intros H. unfold collect_metrics_pass, trims.
  destruct (tick_cpu t) as [e|c]; [destruct (tick_out t); exact H|].
  destruct (tick_mem t) as [e|m]; [destruct (tick_out t); exact H|].
  cbn. apply Forall_forall. intros x Hx.
  apply filter_In in Hx. destruct Hx as [_ Hx].
  apply Z.ltb_lt in Hx.
  exists (tick_now2 t). split; [reflexivity | unfold one_hour in *; lia].
Qed.

Lemma run_fresh (ops : list Op) (acc : option Z) (self : PerformanceMonitor) :
  Forall (fresh_at acc) (metrics_history self) ->
  Forall (fresh_at (last_trim_from acc ops)) (metrics_history (run ops self)).
Proof.
  revert acc self. induction ops as [|op ops IH]; intros acc self H; cbn.
  - exact H.
  - destruct op as [now | now st success | t]; cbn [step].
    + apply IH. exact H.
    + apply IH.
      destruct (end_query_fields now st success self) as (_ & _ & _ & Hm).
      rewrite Hm. exact H.
    + apply IH. apply collect_metrics_pass_fresh. exact H.
Qed.

(** C9. In every state a fresh monitor reaches, each sample kept in
    [metrics_history] was taken less than one hour before the reading of
    [datetime.now()] of the most recent trim. *)
Theorem metrics_history_fresh (ops : list Op) (created : Z) :
  Forall (fun m => exists t, last_trim ops = Some t /\ t - timestamp m < one_hour)
    (metrics_history (run ops (init created))).
Proof.
  apply (run_fresh ops None (init created)). constructor.
Qed.

(** A full history loses its oldest entry to a new one. *)
Example end_query_evicts_oldest :
  let full := map (fun n => inject_Z (Z.of_nat n)) (seq 1 100) in
  let self := set_response_times full (init 0) in
  response_times (end_query 2000 1000 true self)
  = (tl full ++ [(2000 - 1000)%Q])%list.
Proof. vm_compute. reflexivity. Qed.

(** A sample leaves the history at the first trim that finds it one hour
    old; a pass whose [psutil] call faults leaves the history alone. *)
Example collect_metrics_drops_old_sample :
  let tick (now : Z) := mkTick now now (inr 5%Q) (inr 40%Q) None in
  let broken (now : Z) :=
    mkTick now now (inl (mkFault "OSError" "no such process")) (inr 40%Q) None in
  map timestamp
    (metrics_history
       (collect_metrics [tick 0; tick 30000000; broken 3600000000; tick 3600000000]
          (init 0)))
  = [30000000; 3600000000].
Proof. vm_compute. reflexivity. Qed.

Lemma recent_entries_none (time_time : nat -> Q) (l : list Q) (i : nat) :
  (forall j d, In d l -> (d + 60 <= time_time j)%Q) ->
  recent_entries time_time i l = [].
Proof.
  revert i. induction l as [|d l IH]; intros i H; cbn; [reflexivity|].
  destruct (Qltb (time_time i - d) 60) eqn:E.
  - apply Qltb_lt in E. exfalso.
    assert (Hd := H i d (or_introl eq_refl)).
    lra.
  - apply IH. intros j d' Hin. apply H. right. exact Hin.
Qed.

(** X9. What [queries_per_minute] holds: the entries of [response_times] are
    durations, and a duration is compared with the clock.  As soon as the
    clock reads 60 seconds more than the longest recorded duration, as a
    clock counting from 1970 does, the count is 0. *)
Lemma queries_per_minute_zero (now : Z) (time_time : nat -> Q) (c m : Q)
    (self : PerformanceMonitor) :
  (forall j d, In d (response_times self) -> (d + 60 <= time_time j)%Q) ->
  exists s, get_current_stats now time_time (inr c) (inr m) self = inr s
            /\ queries_per_minute s = 0.
Proof.
  intros H. eexists. split; [reflexivity|]. cbn.
  rewrite (recent_entries_none time_time (response_times self) 0 H).
  destruct (response_times self); reflexivity.
Qed.

(** The run of the failing input of C7: one query, started at
    1700000000 s and ended one second later. *)
Definition one_query : list Op :=
  [OpStartQuery 1700000000; OpEndQuery 1700000001 1700000000 true].

(** C7. One second after that query ended, one query was handled in the
    last 60 seconds, and the snapshot counts none. *)
Theorem queries_per_minute_misses_completed_query :
  completed_within_last_minute 1700000002 one_query = 1
  /\ match get_current_stats 1700000002000000 (fun _ => 1700000002%Q)
             (inr 5%Q) (inr 40%Q) (run one_query (init 1699999999000000)) with
     | inr s => queries_per_minute s = 0 /\ stats_total_queries s = 1
     | inl _ => False
     end.
Proof. vm_compute. repeat split. Qed.

End MonitorFacts.

(** ** Rounding *)

Module RoundFacts.
Import Py.

Lemma round_half_even_comp (x y : Q) :
  (x == y)%Q -> round_half_even x = round_half_even y.
Proof.
  intros H. unfold round_half_even.
  rewrite (Qfloor_comp x y H).
  assert (Hc : ((x - inject_Z (Qfloor y)) ?= (1 # 2))%Q
               = ((y - inject_Z (Qfloor y)) ?= (1 # 2))%Q).
  { apply Qcompare_comp; [rewrite H|]; reflexivity. }
  rewrite Hc. reflexivity.
Qed.

Lemma round_comp (x y : Q) (ndigits : nat) :
  (x == y)%Q -> round x ndigits = round y ndigits.
Proof.
  intros H. unfold round. f_equal.
  apply round_half_even_comp. rewrite H. reflexivity.
Qed.

Lemma round_2 (x : Q) : round x 2 = Qmake (round_half_even (x * 100)) 100.
Proof. reflexivity. Qed.

Lemma round_half_even_bounds (x : Q) :
  Qfloor x <= round_half_even x <= Qfloor x + 1.
Proof.
  unfold round_half_even.
  destruct (Qcompare _ _); [destruct (Z.even _)| |]; lia.
Qed.

Lemma round_half_even_integer (z : Z) : round_half_even (inject_Z z) = z.
Proof.
  unfold round_half_even. rewrite Qfloor_Z.
  assert (H : ((inject_Z z - inject_Z z) ?= (1 # 2))%Q = Lt).
  { apply (proj1 (Qlt_alt _ _)). lra. }
  rewrite H. reflexivity.
Qed.

(** At a tie the even neighbour is taken. *)
Lemma round_half_even_tie (x : Q) (m : Z) :
  (x == inject_Z m + (1 # 2))%Q ->
  round_half_even x = if Z.even m then m else m + 1.
Proof.
  intros H. unfold round_half_even.
  assert (Hf : Qfloor x = m).
  { assert (H1 := Qfloor_le x). assert (H2 := Qlt_floor x).
    assert (Hlo : (inject_Z m < inject_Z (Qfloor x + 1))%Q) by lra.
    assert (Hhi : (inject_Z (Qfloor x) < inject_Z (m + 1))%Q).
    { rewrite inject_Z_plus. change (inject_Z 1) with 1%Q. lra. }
    rewrite <- Zlt_Qlt in Hlo, Hhi. lia. }
  rewrite Hf.
  assert (Hc : ((x - inject_Z m) ?= (1 # 2))%Q = Eq).
  { apply (proj1 (Qeq_alt _ _)). lra. }
  rewrite Hc. reflexivity.
Qed.

Lemma round_unit_interval (x : Q) :
  (0 <= x <= 1)%Q -> (0 <= round x 2 <= 1)%Q.
Proof.
  intros [H0 H1]. rewrite round_2.
  set (y := (x * 100)%Q).
  assert (Hy0 : (0 <= y)%Q) by (unfold y; lra).
  assert (Hy1 : (y <= 100)%Q) by (unfold y; lra).
  assert (Hb := round_half_even_bounds y).
  assert (Hf0 : 0 <= Qfloor y).
  { change 0 with (Qfloor 0). apply Qfloor_resp_le. exact Hy0. }
  assert (Hf1 : Qfloor y <= 100).
  { change 100 with (Qfloor 100). apply Qfloor_resp_le. exact Hy1. }
  assert (Hr : round_half_even y <= 100).
  { destruct (Z.eq_dec (Qfloor y) 100) as [E|E]; [|lia].
    assert (Hyeq : (y == inject_Z 100)%Q).
    { assert (Hle := Qfloor_le y). rewrite E in Hle. apply Qle_antisym; assumption. }
    rewrite (round_half_even_comp _ _ Hyeq), round_half_even_integer. lia. }
  unfold Qle. cbn [Qnum Qden]. lia.
Qed.

End RoundFacts.

(** ** Context assembly and confidence scoring *)

Module RagFacts.
Import Py PyFacts RoundFacts Rag.

(** *** The assembled context *)

(** The entries the specification describes: the documents in the order
    given, the one at position [n] (counting from 1) under the label
    "Source n: ". *)
Fixpoint labelled_from (n : Z) (documents : list Document) : list string :=
  match documents with
  | [] => []
  | doc :: rest =>
      ("Source " ++ str_of_int n ++ ": " ++ page_content doc)
      :: labelled_from (n + 1) rest
  end.

(** A blank line between two entries: two line feeds. *)
Definition blank_line : string :=
  String (ascii_of_nat 10) (String (ascii_of_nat 10) EmptyString).

Lemma prepare_context_loop (documents : list Document) (start : nat) (acc : list string) :
  fold_left
    (fun context_parts (entry : nat * Document) =>
       let (i, doc) := entry in
       let label := "Source " ++ str_of_int (Z.of_nat i + 1) ++ ": " in
       (context_parts ++ [(label ++ page_content doc)%string])%list)
    (enumerate_from start documents) acc
  = (acc ++ labelled_from (Z.of_nat start + 1) documents)%list.
Proof.
  revert start acc.
  induction documents as [|doc rest IH]; intros start acc;
    cbn [enumerate_from fold_left labelled_from].
  - rewrite app_nil_r. reflexivity.
  - rewrite IH, <- app_assoc. cbn [app].
    replace (Z.of_nat (S start) + 1) with (Z.of_nat start + 1 + 1) by lia.
    rewrite !string_append_assoc. reflexivity.
Qed.

Lemma prepare_context_parts_labelled (documents : list Document) :
  prepare_context_parts documents = labelled_from 1 documents.
Proof.
  unfold prepare_context_parts, enumerate.
  rewrite prepare_context_loop. reflexivity.
Qed.

Lemma labelled_from_length (n : Z) (documents : list Document) :
  List.length (labelled_from n documents) = List.length documents.
Proof.
  revert n. induction documents as [|doc rest IH]; intros n; cbn; [|rewrite IH]; reflexivity.
Qed.

Lemma labelled_from_nth (documents : list Document) (n : Z) (i : nat) (doc : Document) :
  nth_error documents i = Some doc ->
  nth_error (labelled_from n documents) i
  = Some ("Source " ++ str_of_int (n + Z.of_nat i) ++ ": " ++ page_content doc).
Proof.
  revert n i. induction documents as [|d rest IH]; intros n i H.
  - destruct i; discriminate.
  - destruct i as [|i]; cbn [nth_error labelled_from] in *.
    + injection H as ->. cbn [Z.of_nat]. rewrite Z.add_0_r. reflexivity.
    + rewrite (IH (n + 1) i H).
      replace (n + 1 + Z.of_nat i) with (n + Z.of_nat (S i)) by lia.
      reflexivity.
Qed.

(** C8. The context is the list of the documents' texts, each under its
    label "Source N: " with N counting from 1, in the order retrieval
    returned them, joined with a blank line between consecutive entries. *)
Theorem prepare_context_spec (documents : list Document) :
  prepare_context documents = join blank_line (labelled_from 1 documents)
  /\ List.length (labelled_from 1 documents) = List.length documents
  /\ forall i doc,
       nth_error documents i = Some doc ->
       nth_error (labelled_from 1 documents) i
       = Some ("Source " ++ str_of_int (Z.of_nat i + 1) ++ ": " ++ page_content doc).
Proof.
  split; [|split].
  - unfold prepare_context. rewrite prepare_context_parts_labelled. reflexivity.
  - apply labelled_from_length.
  - intros i doc H. rewrite (labelled_from_nth documents 1 i doc H).
    rewrite (Z.add_comm 1). reflexivity.
Qed.

(** *** The confidence score *)

(** The keyword occurs in the lower-cased question and in the lower-cased
    text of the document. *)
Definition keyword_in_both (question : string) (doc : Document) (keyword : string) : bool :=
  contains keyword (lower question) && contains keyword (lower (page_content doc)).

(** The number of (document, keyword) pairs with the keyword in both. *)
Definition matching_pairs (documents : list Document) (question : string) : nat :=
  List.length
    (filter (fun pair => keyword_in_both question (fst pair) (snd pair))
       (list_prod documents compliance_keywords)).

(** The score as the specification gives it. *)
Definition specified_confidence (documents : list Document) (question : string) : Q :=
  let base := Qmin (inject_Z (len documents) / 3) 1 in
  let bonus := ((1 # 10) * inject_Z (Z.of_nat (matching_pairs documents question)))%Q in
  round (Qmin (base + bonus) 1) 2.

Lemma inject_nat_succ (n : nat) :
  (inject_Z (Z.of_nat (S n)) == inject_Z (Z.of_nat n) + 1)%Q.
Proof. rewrite Nat2Z.inj_succ. unfold Z.succ. rewrite inject_Z_plus. reflexivity. Qed.

Lemma inject_nat_add (n m : nat) :
  (inject_Z (Z.of_nat (n + m)) == inject_Z (Z.of_nat n) + inject_Z (Z.of_nat m))%Q.
Proof. rewrite Nat2Z.inj_add, inject_Z_plus. reflexivity. Qed.

(** The inner loop adds a tenth for each keyword in both. *)
Lemma keyword_loop (test : string -> bool) (keywords : list string) (acc : Q) :
  (fold_left
     (fun keyword_bonus keyword =>
        if test keyword then (keyword_bonus + (1 # 10))%Q else keyword_bonus)
     keywords acc
   == acc + (1 # 10) * inject_Z (Z.of_nat (List.length (filter test keywords))))%Q.
Proof.
  revert acc. induction keywords as [|k rest IH]; intros acc; cbn [fold_left filter].
  - change (inject_Z (Z.of_nat (List.length (@nil string)))) with 0%Q. lra.
  - rewrite IH. destruct (test k); cbn [List.length].
    + rewrite inject_nat_succ. lra.
    + reflexivity.
Qed.

Lemma matching_pairs_cons (doc : Document) (rest : list Document) (question : string) :
  matching_pairs (doc :: rest) question
  = (List.length (filter (keyword_in_both question doc) compliance_keywords)
     + matching_pairs rest question)%nat.
Proof.
  unfold matching_pairs. cbn [list_prod].
  rewrite filter_app, length_app. f_equal.
  generalize compliance_keywords. intros ks.
  induction ks as [|k ks IH]; cbn; [reflexivity|].
  destruct (keyword_in_both question doc k); cbn; rewrite IH; reflexivity.
Qed.

(** The two loops add a tenth for each matching pair. *)
Lemma document_loop (documents : list Document) (question : string) (acc : Q) :
  (fold_left
     (fun keyword_bonus doc =>
        let doc_lower := lower (page_content doc) in
        fold_left
          (fun keyword_bonus keyword =>
             if contains keyword (lower question) && contains keyword doc_lower
             then (keyword_bonus + (1 # 10))%Q
             else keyword_bonus)
          compliance_keywords keyword_bonus)
     documents acc
   == acc + (1 # 10) * inject_Z (Z.of_nat (matching_pairs documents question)))%Q.
Proof.
  revert acc. induction documents as [|doc rest IH]; intros acc.
  - change (inject_Z (Z.of_nat (matching_pairs [] question))) with 0%Q.
    cbn [fold_left]. lra.
  - cbn [fold_left]. rewrite IH.
    cbv zeta.
    rewrite (keyword_loop (keyword_in_both question doc) compliance_keywords acc).
    rewrite matching_pairs_cons, inject_nat_add. lra.
Qed.

Lemma keyword_bonus_count (documents : list Document) (question : string) :
  (keyword_bonus_of documents (lower question)
   == (1 # 10) * inject_Z (Z.of_nat (matching_pairs documents question)))%Q.
Proof. unfold keyword_bonus_of. rewrite document_loop. lra. Qed.

Lemma Qmin_comp_l (x y z : Q) : (x == y)%Q -> (Qmin x z == Qmin y z)%Q.
Proof. intros H. rewrite H. reflexivity. Qed.

Lemma unrounded_confidence_spec (documents : list Document) (question : string) :
  (unrounded_confidence documents question
   == Qmin (Qmin (inject_Z (len documents) / 3) 1
            + (1 # 10) * inject_Z (Z.of_nat (matching_pairs documents question))) 1)%Q.
Proof.
  unfold unrounded_confidence. cbv zeta.
  apply Qmin_comp_l. rewrite keyword_bonus_count. reflexivity.
Qed.

Lemma calculate_confidence_specified (documents : list Document) (question : string) :
  documents <> [] ->
  calculate_confidence documents question = specified_confidence documents question.
Proof.
  intros H. destruct documents as [|doc rest]; [congruence|].
  unfold calculate_confidence, specified_confidence.
  apply round_comp, unrounded_confidence_spec.
Qed.

(** C1. With no document the score is 0, whatever the question.  With at
    least one it is [min(base + bonus, 1.0)] rounded to two decimals, where
    [base = min(count / 3.0, 1.0)] and [bonus] is a tenth for every
    (document, keyword) pair whose keyword is in the lower-cased question
    and in the lower-cased text, counted without a cap. *)
Theorem calculate_confidence_spec (documents : list Document) (question : string) :
  (documents = [] -> calculate_confidence documents question = 0%Q)
  /\ (documents <> [] ->
      calculate_confidence documents question
      = specified_confidence documents question).
Proof.
  split.
  - intros ->. reflexivity.
  - apply calculate_confidence_specified.
Qed.

(** [x / 3] as a product, for linear arithmetic. *)
Ltac thirds := unfold Qdiv in *; change (/ 3)%Q with (1 # 3)%Q in *.

Lemma inject_nat_nonneg (n : nat) : (0 <= inject_Z (Z.of_nat n))%Q.
Proof. change 0%Q with (inject_Z 0). rewrite <- Zle_Qle. lia. Qed.

Lemma unrounded_confidence_bounds (documents : list Document) (question : string) :
  (0 <= unrounded_confidence documents question <= 1)%Q.
Proof.
  rewrite unrounded_confidence_spec.
  assert (Hn := inject_nat_nonneg (List.length documents)).
  assert (Hk := inject_nat_nonneg (matching_pairs documents question)).
  unfold len.
  destruct (Q.min_spec (inject_Z (Z.of_nat (List.length documents)) / 3) 1)
    as [[_ ->] | [_ ->]];
    match goal with |- context [Qmin ?a 1] =>
      destruct (Q.min_spec a 1) as [[? ->] | [? ->]] end;
    thirds; split; lra.
Qed.

(** The score lies between 0 and 1. *)
Lemma calculate_confidence_bounds (documents : list Document) (question : string) :
  (0 <= calculate_confidence documents question <= 1)%Q.
Proof.
  destruct documents as [|doc rest]; [cbn; split; lra|].
  apply round_unit_interval, unrounded_confidence_bounds.
Qed.

(** Three hundred times the value handed to [round] is an integer: in
    hundredths it is an integer, or an integer and one or two thirds. *)
Lemma unrounded_confidence_thirds (documents : list Document) (question : string) :
  exists n : Z, (300 * unrounded_confidence documents question == inject_Z n)%Q.
Proof.
  set (L := Z.of_nat (List.length documents)).
  set (K := Z.of_nat (matching_pairs documents question)).
  assert (Hsum : (300 * (inject_Z L / 3 + (1 # 10) * inject_Z K)
                  == inject_Z (100 * L + 30 * K))%Q).
  { rewrite inject_Z_plus, !inject_Z_mult.
    change (inject_Z 100) with 100%Q. change (inject_Z 30) with 30%Q.
    thirds. lra. }
  assert (Hone : (300 * (1 + (1 # 10) * inject_Z K) == inject_Z (300 + 30 * K))%Q).
  { rewrite inject_Z_plus, !inject_Z_mult.
    change (inject_Z 300) with 300%Q. change (inject_Z 30) with 30%Q. lra. }
  destruct (Q.min_spec (inject_Z L / 3) 1) as [[_ Hb] | [_ Hb]];
    match goal with |- context [unrounded_confidence ?d ?q] =>
      assert (Hu := unrounded_confidence_spec d q) end;
    unfold len in Hu; fold L K in Hu; rewrite Hb in Hu;
    match type of Hu with context [Qmin ?a 1] =>
      destruct (Q.min_spec a 1) as [[_ Hm] | [_ Hm]] end;
    rewrite Hm in Hu.
  - exists (100 * L + 30 * K). rewrite Hu. exact Hsum.
  - exists 300. rewrite Hu. reflexivity.
  - exists (300 + 30 * K). rewrite Hu. exact Hone.
  - exists 300. rewrite Hu. reflexivity.
Qed.

(** No question and no documents put the value handed to [round] halfway
    between two hundredths: it stays a sixth of a hundredth away from
    every such point. *)
Lemma score_margin (documents : list Document) (question : string) (m : Z) :
  (unrounded_confidence documents question * 100 <= inject_Z m + (1 # 2) - (1 # 6)
   \/ inject_Z m + (1 # 2) + (1 # 6) <= unrounded_confidence documents question * 100)%Q.
Proof.
  destruct (unrounded_confidence_thirds documents question) as [n Hn].
  destruct (Z_le_gt_dec n (3 * m + 1)) as [Hle | Hgt].
  - left. rewrite Zle_Qle in Hle.
    rewrite inject_Z_plus, inject_Z_mult in Hle.
    change (inject_Z 3) with 3%Q in Hle. change (inject_Z 1) with 1%Q in Hle.
    lra.
  - right. assert (Hge : 3 * m + 2 <= n) by lia. rewrite Zle_Qle in Hge.
    rewrite inject_Z_plus, inject_Z_mult in Hge.
    change (inject_Z 3) with 3%Q in Hge. change (inject_Z 2) with 2%Q in Hge.
    lra.
Qed.

Lemma score_never_halfway (documents : list Document) (question : string) (m : Z) :
  ~ (unrounded_confidence documents question * 100 == inject_Z m + (1 # 2))%Q.
Proof.
  intros H. destruct (score_margin documents question m); lra.
Qed.

End RagFacts.

(** ** The query path *)

Module QueryFacts.
Import Py PyFacts RoundFacts Rag RagFacts.

(** The reading [start_query] returns in world [w]. *)
Definition start_reading (env : Env) (w : World) : Q :=
  time_time env (time_calls w).

(** The world [start_query] leaves. *)
Definition started (env : Env) (w : World) : World :=
  mkWorld (snd (Monitor.start_query (start_reading env w) (performance_monitor w)))
    (journal w ++ [EvStartQuery (start_reading env w)])
    (S (time_calls w)) (print_calls w).

(** The fixed outcome of the [except] branch. *)
Definition failure_outcome (elapsed : Q) : Outcome :=
  mkOutcome failure_message [] 0%Q elapsed None.

(** The fixed outcome of an empty retrieval. *)
Definition not_found_outcome (elapsed : Q) : Outcome :=
  mkOutcome not_found_message [] 0%Q elapsed None.

(** A confidence between 0 and 1 and a whole number of hundredths. *)
Definition well_formed (o : Outcome) : Prop :=
  (0 <= confidence o <= 1)%Q
  /\ exists hundredths : Z, (confidence o == hundredths # 100)%Q.

Lemma start_query_runs (env : Env) (w : World) :
  performance_monitor_start_query env w = (inr (start_reading env w), started env w).
Proof. reflexivity. Qed.

Lemma query_unfold (env : Env) (question : string) (k : Z) (w : World) :
  query env question k w
  = try_except (query_body env question k (start_reading env w))
      (query_handler env question (start_reading env w)) (started env w).
Proof. reflexivity. Qed.

(** The [except] branch does not raise. *)
Lemma query_handler_runs (env : Env) (question : string) (st : Q) (e : Fault) (w : World) :
  query_handler env question st e w
  = (inr (failure_outcome (time_time env (time_calls w) - st)),
     mkWorld
       (Monitor.end_query (time_time env (S (time_calls w))) st false
          (performance_monitor w))
       ((journal w ++ [EvEndQuery st false])
          ++ [EvLogError e ("Query processing failed: " ++ take 50 question)])
       (S (S (time_calls w))) (print_calls w)).
Proof. reflexivity. Qed.

Lemma bind_inr {A B : Type} (m : M A) (f : A -> M B) (w w' : World) (b : B) :
  bind m f w = (inr b, w') ->
  exists a w1, m w = (inr a, w1) /\ f a w1 = (inr b, w').
Proof.
  unfold bind. destruct (m w) as [[e|a] w1]; intros H; [discriminate|].
  exists a, w1. split; [reflexivity | exact H].
Qed.

Lemma try_except_inr {A : Type} (m : M A) (h : Fault -> M A) (w w' : World) (a : A) :
  try_except m h w = (inr a, w') ->
  m w = (inr a, w') \/ exists e w1, m w = (inl e, w1) /\ h e w1 = (inr a, w').
Proof.
  unfold try_except. destruct (m w) as [[e|x] w1]; intros H.
  - right. exists e, w1. split; [reflexivity | exact H].
  - left. exact H.
Qed.

Lemma round_hundredths (x : Q) : exists h : Z, (round x 2 == h # 100)%Q.
Proof. rewrite round_2. eexists. reflexivity. Qed.

Lemma well_formed_zero (a : string) (s : list (list (string * string))) (t : Q)
    (c : option string) :
  well_formed (mkOutcome a s 0%Q t c).
Proof.
  split; cbn; [split; lra|]. exists 0. reflexivity.
Qed.

Lemma well_formed_scored (a : string) (s : list (list (string * string))) (t : Q)
    (c : option string) (documents : list Document) (question : string) :
  well_formed (mkOutcome a s (calculate_confidence documents question) t c).
Proof.
  split; cbn [confidence].
  - apply calculate_confidence_bounds.
  - destruct documents; [exists 0; reflexivity | apply round_hundredths].
Qed.

(** Whatever the body of the [try] returns is well formed. *)
Lemma query_body_well_formed (env : Env) (question : string) (k : Z) (st : Q)
    (w w' : World) (o : Outcome) :
  query_body env question k st w = (inr o, w') -> well_formed o.
Proof.
  unfold query_body. intros H.
  apply bind_inr in H. destruct H as (_ & w1 & _ & H).
  apply bind_inr in H. destruct H as (_ & w2 & _ & H).
  apply bind_inr in H. destruct H as (docs & w3 & _ & H).
  destruct docs as [|doc rest].
  - apply bind_inr in H. destruct H as (now & w4 & _ & H).
    apply bind_inr in H. destruct H as (_ & w5 & _ & H).
    apply bind_inr in H. destruct H as (_ & w6 & _ & H).
    injection H as <- _. apply well_formed_zero.
  - apply bind_inr in H. destruct H as (_ & w4 & _ & H).
    apply bind_inr in H. destruct H as (ans & w5 & _ & H).
    apply bind_inr in H. destruct H as (_ & w6 & _ & H).
    apply bind_inr in H. destruct H as (now & w7 & _ & H).
    apply bind_inr in H. destruct H as (_ & w8 & _ & H).
    apply bind_inr in H. destruct H as (_ & w9 & _ & H).
    injection H as <- _.
    apply (well_formed_scored _ _ _ _ (doc :: rest) question).
Qed.

(** C2. [query] returns an outcome and never a fault, whatever the clock,
    the standard output, the vector store and the chain do; the outcome is
    well formed; and when a fault leaves the body of the [try], the outcome
    is the fixed failure message with confidence 0, no sources and the
    elapsed time, and the monitor is told [end_query] with [success=False]
    (the error is logged after that). *)
Theorem query_never_raises (env : Env) (question : string) (k : Z) (w : World) :
  exists o w',
    query env question k w = (inr o, w')
    /\ well_formed o
    /\ forall e w2,
         query_body env question k (start_reading env w) (started env w) = (inl e, w2) ->
         o = failure_outcome (time_time env (time_calls w2) - start_reading env w)
         /\ performance_monitor w'
            = Monitor.end_query (time_time env (S (time_calls w2)))
                (start_reading env w) false (performance_monitor w2)
         /\ journal w'
            = (journal w2
               ++ [EvEndQuery (start_reading env w) false;
                   EvLogError e ("Query processing failed: " ++ take 50 question)])%list.
Proof.
  rewrite query_unfold. unfold try_except.
  destruct (query_body env question k (start_reading env w) (started env w))
    as [[e|o] w2] eqn:Hbody.
  - rewrite query_handler_runs. eexists. eexists.
    split; [reflexivity|]. split; [apply well_formed_zero|].
    intros e' w2' H. injection H as <- <-.
    cbn [performance_monitor journal].
    rewrite <- app_assoc. repeat split.
  - exists o, w2. split; [reflexivity|].
    split; [exact (query_body_well_formed _ _ _ _ _ _ _ Hbody)|].
    intros e' w2' H. discriminate.
Qed.

(** *** Runs in which printing works *)

(** No [print] raises. *)
Definition stdout_works (env : Env) : Prop := forall n, stdout env n = None.

(** What [search] returns when printing works: the results of the store,
    and nothing when there is no store or when the store raises. *)
Definition retrieved (env : Env) (query : string) (k : Z) : list Document :=
  match vector_store env with
  | None => []
  | Some similarity_search =>
      match similarity_search query k with
      | inr results => results
      | inl _ => []
      end
  end.

(** What [search] leaves in the journal when printing works. *)
Definition retrieval_events (env : Env) (query : string) (k : Z) : list Event :=
  match vector_store env with
  | None => [EvPrint "Vector store not initialized"]
  | Some similarity_search =>
      match similarity_search query k with
      | inr results =>
          [EvSimilaritySearch query k;
           EvPrint ("Found " ++ str_of_int (len results) ++ " relevant documents")]
      | inl e =>
          [EvSimilaritySearch query k;
           EvPrint ("Search error: " ++ error_message e)]
      end
  end.

(** The events of the steps between retrieval and the outcome. *)
Definition pipeline_step (ev : Event) : bool :=
  match ev with
  | EvPrepareContext | EvChainRun _ _ | EvMockLlmResponse | EvCalculateConfidence => true
  | _ => false
  end.

Lemma retrieval_events_no_pipeline_step (env : Env) (query : string) (k : Z) :
  existsb pipeline_step (retrieval_events env query k) = false.
Proof.
  unfold retrieval_events.
  destruct (vector_store env) as [ss|]; [destruct (ss query k)|]; reflexivity.
Qed.

Lemma match_nonempty {A B : Type} (l : list A) (a b : B) :
  l <> [] -> match l with [] => a | _ :: _ => b end = b.
Proof. destruct l; [congruence | reflexivity]. Qed.

Lemma bind_run {A B : Type} (m : M A) (f : A -> M B) (w w1 : World) (a : A) :
  m w = (inr a, w1) -> bind m f w = f a w1.
Proof. unfold bind. intros ->. reflexivity. Qed.

Lemma print_runs (env : Env) (line : string) (w : World) :
  stdout_works env ->
  print env line w
  = (inr tt,
     mkWorld (performance_monitor w) (journal w ++ [EvPrint line]) (time_calls w)
       (S (print_calls w))).
Proof. intros H. unfold print. rewrite H. reflexivity. Qed.

Lemma vector_store_search_runs (env : Env) (query : string) (k : Z) (w : World) :
  stdout_works env ->
  vector_store_search env query k w
  = (inr (retrieved env query k),
     mkWorld (performance_monitor w) (journal w ++ retrieval_events env query k)
       (time_calls w) (S (print_calls w))).
Proof.
  intros H. unfold vector_store_search, retrieved, retrieval_events.
  destruct (vector_store env) as [ss|].
  - unfold try_except, bind, emit, ret.
    destruct (ss query k) as [e|results].
    + rewrite print_runs by exact H. cbn. rewrite <- app_assoc. reflexivity.
    + rewrite print_runs by exact H. cbn. rewrite <- app_assoc. reflexivity.
  - unfold bind, ret. rewrite print_runs by exact H. reflexivity.
Qed.

(** One statement of the body that does not raise. *)
Ltac run_statement Hout :=
  erewrite bind_run;
  [| first [ apply print_runs; exact Hout
           | apply vector_store_search_runs; exact Hout
           | reflexivity ] ].

(** C4. When retrieval returns no document, [query] returns the fixed
    not-found message with confidence 0, no sources and the elapsed time;
    the monitor is told [end_query] with [success=False]; and between the
    retrieval and that call nothing runs: no context assembly, no
    generation, no scoring. *)
Theorem empty_retrieval_outcome (env : Env) (question : string) (k : Z) (w : World) :
  stdout_works env ->
  retrieved env question k = [] ->
  let t0 := start_reading env w in
  let elapsed := (time_time env (S (time_calls w)) - t0)%Q in
  exists w',
    query env question k w = (inr (not_found_outcome elapsed), w')
    /\ performance_monitor w'
       = Monitor.end_query (time_time env (S (S (time_calls w)))) t0 false
           (snd (Monitor.start_query t0 (performance_monitor w)))
    /\ journal w'
       = (journal w
          ++ [EvStartQuery t0;
              EvLogSystemEvent "query_started"
                [("query_length", Z.of_nat (String.length question))];
              EvPrint ("Processing query: " ++ question)]
          ++ retrieval_events env question k
          ++ [EvEndQuery t0 false;
              EvLogQuery (take 100 question) elapsed 0%Q 0 false])%list
    /\ existsb pipeline_step (retrieval_events env question k) = false.
Proof.
  intros Hout Hnone t0 elapsed.
  rewrite query_unfold. unfold try_except, query_body.
  do 3 run_statement Hout.
  rewrite Hnone.
  do 3 run_statement Hout.
  unfold ret. eexists. split; [reflexivity|].
  cbn [performance_monitor journal record started].
  repeat split.
  - rewrite <- !app_assoc. reflexivity.
  - apply retrieval_events_no_pipeline_step.
Qed.

(** The preview of the context kept in the outcome. *)
Definition context_preview (context : string) : string :=
  if (200 <? String.length context)%nat then take 200 context ++ "..." else context.

(** *** The path through the fallback answer

    The lines this path prints are the query line, the line of the
    retrieval and the "LLM error" line of the fallback branch: the prints
    numbered [print_calls w], the next and the one after. *)






(** *** One [end_query] for each query *)

Definition is_end_query (ev : Event) : bool :=
  match ev with
  | EvEndQuery _ _ => true
  | _ => false
  end.

(** Run [query] in a hypothesis, branching on what the clock, the output,
    the store and the chain answer. *)
Ltac execute_query H :=
  cbv beta iota zeta delta
    [query performance_monitor_start_query bind try_except query_body
     query_handler time_now print ret raise emit record generate
     vector_store_search logger_log_system_event logger_log_query
     logger_log_error performance_monitor_end_query Monitor.start_query
     performance_monitor journal time_calls print_calls] in H;
  repeat match type of H with
         | context [match ?x with _ => _ end] =>
             match x with
             | context [match _ with _ => _ end] => fail 1
             | _ => destruct x eqn:?
             end
         end.

(** X17. Whatever happens, [query] calls [end_query] once. *)
Lemma query_ends_once (env : Env) (question : string) (k : Z) (w : World) :
  exists o w' events,
    query env question k w = (inr o, w')
    /\ journal w' = (journal w ++ events)%list
    /\ List.length (filter is_end_query events) = 1%nat
    /\ Monitor.total_queries (performance_monitor w')
       = Monitor.total_queries (performance_monitor w) + 1.
Proof.
  destruct (query env question k w) as [[e|o] w'] eqn:H.
  - exfalso. execute_query H; discriminate.
  - execute_query H; try discriminate;
      injection H as <- <-;
      eexists; eexists; eexists;
      (split; [reflexivity|]);
      cbn [journal performance_monitor];
      rewrite <- ?app_assoc;
      (split; [reflexivity|]);
      (split; [reflexivity|]);
      rewrite ?(proj1 (proj2 (MonitorFacts.end_query_fields _ _ _ _)));
      reflexivity.
Qed.

End QueryFacts.

(** ** The theorems at concrete inputs *)

Module Scenarios.
Import Py Rag RagFacts QueryFacts.

Definition gst_return_doc : Document :=
  mkDocument "GST return filing is due on the 11th of the next month."
    [("source", "data/raw/sample_gst_info.txt"); ("chunk_id", "0")].

Definition gst_rate_doc : Document :=
  mkDocument "The GST rate for restaurants is 5% without input tax credit."
    [("source", "data/raw/sample_gst_info.txt"); ("chunk_id", "1")].

Definition registration_doc : Document :=
  mkDocument "A PAN card and proof of address are needed for registration."
    [("source", "data/raw/sample_gst_info.txt"); ("chunk_id", "2")].

Definition rate_question : string := "What is the GST rate for restaurants?".

(** The clock reads 1700000000 s at the first call and advances by one
    second at each call. *)
Definition ticking (n : nat) : Q := inject_Z (1700000000 + Z.of_nat n).

Definition fresh_world : World := mkWorld (Monitor.init 1699999999000000) [] 0 0.

(** A store with two matching chunks, and an Ollama chain that cannot be
    reached. *)
Definition unreachable_llm : Env :=
  mkEnv ticking (fun _ => None)
    (Some (fun _ _ => inr [gst_return_doc; gst_rate_doc]))
    ollama
    (fun _ _ => inl (mkFault "ConnectionError" "connection refused")).

(** A store that finds nothing. *)
Definition empty_store : Env :=
  mkEnv ticking (fun _ => None) (Some (fun _ _ => inr [])) ollama
    (fun _ _ => inr "unused").

(** A standard output that cannot encode the first line printed. *)
Definition broken_stdout : Env :=
  mkEnv ticking
    (fun _ => Some (mkFault "UnicodeEncodeError" "'charmap' codec can't encode character"))
    (Some (fun _ _ => inr [gst_return_doc; gst_rate_doc]))
    ollama
    (fun _ _ => inr "unused").

(** One document and no keyword in common: a third, 0.33. *)
Example confidence_one_document :
  calculate_confidence [registration_doc] rate_question = (33 # 100)%Q.
Proof. vm_compute. reflexivity. Qed.

(** Two documents; "gst" is in the question and in both, "rate" in the
    question and in the second: 2/3 + 0.3, 0.97. *)
Example confidence_two_documents :
  calculate_confidence [gst_return_doc; gst_rate_doc] rate_question = (97 # 100)%Q.
Proof. vm_compute. reflexivity. Qed.

(** The bonus is not capped: the same document twice counts its keywords
    twice, and the sum is cut at 1 only at the end. *)
Example confidence_uncapped_bonus :
  matching_pairs [gst_rate_doc; gst_rate_doc] rate_question = 4%nat
  /\ calculate_confidence [gst_rate_doc; gst_rate_doc] rate_question = (100 # 100)%Q.
Proof. vm_compute. split; reflexivity. Qed.

Example context_of_two_documents :
  prepare_context [registration_doc; gst_rate_doc]
  = "Source 1: A PAN card and proof of address are needed for registration."
    ++ blank_line
    ++ "Source 2: The GST rate for restaurants is 5% without input tax credit.".
Proof. vm_compute. reflexivity. Qed.

Lemma calculate_confidence_spec_witness :
  calculate_confidence [] rate_question = 0%Q
  /\ calculate_confidence [gst_return_doc; gst_rate_doc] rate_question
     = specified_confidence [gst_return_doc; gst_rate_doc] rate_question.
Proof.
  split.
  - apply (proj1 (calculate_confidence_spec [] rate_question)). reflexivity.
  - apply (proj2 (calculate_confidence_spec [gst_return_doc; gst_rate_doc] rate_question)).
    discriminate.
Defined.


Lemma query_never_raises_witness :
  exists o w',
    query broken_stdout rate_question 3 fresh_world = (inr o, w')
    /\ o = failure_outcome (ticking 1 - ticking 0)
    /\ Monitor.failed_queries (performance_monitor w') = 1
    /\ Monitor.active_queries (performance_monitor w') = 0.
Proof.
  destruct (query_never_raises broken_stdout rate_question 3 fresh_world)
    as (o & w' & Hq & _ & Hfault).
  exists o, w'. split; [exact Hq|].
  destruct (Hfault (mkFault "UnicodeEncodeError" "'charmap' codec can't encode character")
              (mkWorld
                 (snd (Monitor.start_query (ticking 0) (Monitor.init 1699999999000000)))
                 [EvStartQuery (ticking 0);
                  EvLogSystemEvent "query_started" [("query_length", 37)]]
                 1 1)
              eq_refl) as (Ho & Hm & _).
  split; [exact Ho|]. rewrite Hm. split; reflexivity.
Defined.




Lemma empty_retrieval_outcome_witness :
  exists w',
    query empty_store rate_question 3 fresh_world
    = (inr (not_found_outcome (ticking 1 - ticking 0)), w')
    /\ Monitor.total_queries (performance_monitor w') = 1
    /\ Monitor.failed_queries (performance_monitor w') = 1.
Proof.
  destruct (empty_retrieval_outcome empty_store rate_question 3 fresh_world)
    as (w' & Hq & Hm & _).
  - intros n. reflexivity.
  - reflexivity.
  - exists w'. split; [exact Hq|]. rewrite Hm. split; reflexivity.
Defined.

End Scenarios.

(** ** The rational scorer and the binary64 scorer agree *)

Module Binary64Facts.
Import Py RoundFacts Rag RagFacts.

(** The hundredths of the specified score, from the two counts. *)
Definition specified_hundredths (count matches : nat) : Z :=
  round_half_even
    (Qmin (Qmin (inject_Z (Z.of_nat count) / 3) 1
           + (1 # 10) * inject_Z (Z.of_nat matches)) 1 * 100).

Definition agrees (count matches : nat) : bool :=
  match Binary64.rounded_hundredths (Binary64.unrounded_confidence count matches) with
  | Some h => h =? specified_hundredths count matches
  | None => false
  end.

(** Up to ten documents, and as many additions as seven keywords allow. *)
Lemma replay :
  forallb (fun count => forallb (agrees count) (seq 0 (7 * count + 1))) (seq 1 10) = true.
Proof. vm_compute. reflexivity. Qed.

(** The four binary64 numbers between 0 and 1 that are a whole number of
    hundredths and a half go to the even neighbour. *)
Example binary64_ties :
  map Binary64.rounded_hundredths [0.125; 0.375; 0.625; 0.875]%float
  = [Some 12; Some 38; Some 62; Some 88].
Proof. vm_compute. reflexivity. Qed.

(** Adding a tenth three times is not three tenths, but rounds to them. *)
Example binary64_three_tenths :
  Binary64.add_tenths 3 0%float = 0x1.3333333333334p-2%float
  /\ Binary64.rounded_hundredths (Binary64.add_tenths 3 0%float) = Some 30.
Proof. vm_compute. split; reflexivity. Qed.

Lemma matching_pairs_bound (documents : list Document) (question : string) :
  (matching_pairs documents question <= 7 * List.length documents)%nat.
Proof.
  unfold matching_pairs.
  eapply Nat.le_trans; [apply filter_length_le|].
  rewrite length_prod. cbn [compliance_keywords List.length]. lia.
Qed.

Lemma specified_confidence_hundredths (documents : list Document) (question : string) :
  specified_confidence documents question
  = Qmake (specified_hundredths (List.length documents) (matching_pairs documents question)) 100.
Proof. reflexivity. Qed.

(** X13. With one to ten documents, rounding the binary64 sum to two decimals
    gives the hundredths of the rational score. *)
Lemma binary64_confidence (documents : list Document) (question : string) :
  documents <> [] ->
  (List.length documents <= 10)%nat ->
  exists h,
    Binary64.rounded_hundredths
      (Binary64.unrounded_confidence (List.length documents)
         (matching_pairs documents question)) = Some h
    /\ calculate_confidence documents question = Qmake h 100.
Proof.
  intros Hne Hlen.
  assert (Hpos : (1 <= List.length documents)%nat).
  { destruct documents; [congruence | cbn; lia]. }
  assert (Hrun := replay).
  rewrite forallb_forall in Hrun.
  specialize (Hrun (List.length documents)).
  rewrite forallb_forall in Hrun.
  assert (Hagree : agrees (List.length documents) (matching_pairs documents question) = true).
  { apply Hrun.
    - apply in_seq. lia.
    - apply in_seq. assert (Hb := matching_pairs_bound documents question). lia. }
  unfold agrees in Hagree.
  destruct (Binary64.rounded_hundredths _) as [h|]; [|discriminate].
  apply Z.eqb_eq in Hagree. exists h. split; [reflexivity|].
  rewrite (calculate_confidence_specified documents question Hne).
  rewrite specified_confidence_hundredths, Hagree. reflexivity.
Qed.

End Binary64Facts.

(** ** Runs of the monitor: what the counters and the two histories hold *)

Module MonitorRuns.
Import Py PyFacts Monitor MonitorFacts.

(** The [end_query] calls of a run, in order: reading, start time, flag. *)
Definition end_call (op : Op) : list (Q * Q * bool) :=
  match op with
  | OpEndQuery now st success => [(now, st, success)]
  | _ => []
  end.

Definition ended (ops : list Op) : list (Q * Q * bool) := flat_map end_call ops.

(** The [start_query] calls of a run. *)
Definition started_count (ops : list Op) : Z :=
  len (filter (fun op => match op with OpStartQuery _ => true | _ => false end) ops).

(** The elapsed time an [end_query] call records. *)
Definition elapsed_of (call : Q * Q * bool) : Q :=
  (fst (fst call) - snd (fst call))%Q.

Definition failed_call (call : Q * Q * bool) : bool := negb (snd call).

Lemma len_app {A : Type} (l l' : list A) : len (l ++ l') = len l + len l'.
Proof. unfold len. rewrite length_app. lia. Qed.

Lemma step_counters (op : Op) (self : PerformanceMonitor) :
  total_queries (step self op) = total_queries self + len (end_call op)
  /\ failed_queries (step self op)
     = failed_queries self + len (filter failed_call (end_call op)).
Proof.
  destruct op as [now | now st success | t]; cbn [step].
  - cbn. lia.
  - destruct (end_query_fields now st success self) as (_ & Ht & Hf & _).
    rewrite Ht, Hf. destruct success; cbn; lia.
  - destruct (collect_metrics_pass_counters (tick_now1 t) (tick_now2 t)
                (tick_cpu t) (tick_mem t) (tick_out t) self) as (_ & Ht & Hf & _).
    rewrite Ht, Hf. cbn. lia.
Qed.

Lemma run_counters (ops : list Op) (self : PerformanceMonitor) :
  total_queries (run ops self) = total_queries self + len (ended ops)
  /\ failed_queries (run ops self)
     = failed_queries self + len (filter failed_call (ended ops)).
Proof.
  revert self. induction ops as [|op ops IH]; intros self.
  - cbn. lia.
  - change (run (op :: ops) self) with (run ops (step self op)).
    destruct (IH (step self op)) as [Ht Hf].
    destruct (step_counters op self) as [Ht1 Hf1].
    change (ended (op :: ops)) with (end_call op ++ ended ops)%list.
    rewrite Ht, Hf, Ht1, Hf1, filter_app, !len_app. lia.
Qed.

(** X1. In every state a fresh monitor reaches, [total_queries] is the number
    of [end_query] calls made so far and [failed_queries] the number of
    those with [success=False]: a query that was started and never ended is
    in neither. *)
Theorem counters_count_finished_queries (ops : list Op) (created : Z) :
  total_queries (run ops (init created)) = len (ended ops)
  /\ failed_queries (run ops (init created)) = len (filter failed_call (ended ops)).
Proof.
  destruct (run_counters ops (init created)) as [Ht Hf].
  rewrite Ht, Hf. cbn. split; reflexivity.
Qed.

(** No [end_query] comes before its [start_query]: the running number of
    open queries, which starts at [depth], never goes below 0. *)
Fixpoint well_bracketed (depth : Z) (ops : list Op) : bool :=
  match ops with
  | [] => true
  | OpStartQuery _ :: rest => well_bracketed (depth + 1) rest
  | OpEndQuery _ _ _ :: rest => (0 <? depth) && well_bracketed (depth - 1) rest
  | OpCollect _ :: rest => well_bracketed depth rest
  end.

Lemma run_active (ops : list Op) (self : PerformanceMonitor) :
  0 <= active_queries self ->
  well_bracketed (active_queries self) ops = true ->
  active_queries (run ops self)
  = active_queries self + started_count ops - len (ended ops).
Proof.
  revert self. induction ops as [|op ops IH]; intros self Hpos Hwb.
  - cbn. lia.
  - change (run (op :: ops) self) with (run ops (step self op)).
    change (ended (op :: ops)) with (end_call op ++ ended ops)%list.
    rewrite len_app.
    destruct op as [now | now st success | t]; cbn [well_bracketed] in Hwb.
    + assert (Ha : active_queries (step self (OpStartQuery now)) = active_queries self + 1)
        by reflexivity.
      rewrite IH; rewrite Ha; [|lia|exact Hwb].
      unfold started_count. cbn [filter end_call]. unfold len. cbn [List.length]. lia.
    + apply andb_true_iff in Hwb. destruct Hwb as [Hd Hwb]. apply Z.ltb_lt in Hd.
      assert (Ha : active_queries (step self (OpEndQuery now st success))
                   = active_queries self - 1).
      { cbn [step]. rewrite (proj1 (end_query_fields now st success self)). lia. }
      rewrite IH; rewrite Ha; [|lia|exact Hwb].
      unfold started_count. cbn [filter end_call]. unfold len. cbn [List.length]. lia.
    + assert (Ha : active_queries (step self (OpCollect t)) = active_queries self).
      { cbn [step].
        exact (proj1 (collect_metrics_pass_counters (tick_now1 t) (tick_now2 t)
                        (tick_cpu t) (tick_mem t) (tick_out t) self)). }
      rewrite IH; rewrite Ha; [|lia|exact Hwb].
      unfold started_count. cbn [filter end_call]. unfold len. cbn [List.length]. lia.
Qed.

(** X2. When every [end_query] of a run follows its own [start_query],
    [active_queries] is the number of queries started and not yet ended; it
    is back at 0 once each started query has ended. *)
Theorem active_queries_is_open_queries (ops : list Op) (created : Z) :
  well_bracketed 0 ops = true ->
  active_queries (run ops (init created)) = started_count ops - len (ended ops)
  /\ (started_count ops = len (ended ops) ->
      active_queries (run ops (init created)) = 0).
Proof.
  intros Hwb.
  assert (H := run_active ops (init created)).
  cbn [init active_queries] in H. specialize (H (Z.le_refl 0) Hwb).
  split; [lia | intros Heq; lia].
Qed.

Lemma active_queries_is_open_queries_witness :
  let ops :=
    [OpStartQuery 10; OpStartQuery 11; OpEndQuery 12 10 true;
     OpStartQuery 13; OpEndQuery 14 11 false; OpEndQuery 15 13 true] in
  active_queries (run ops (init 0)) = 0 /\ total_queries (run ops (init 0)) = 3.
Proof.
  intros ops. split; [|reflexivity].
  apply (proj2 (active_queries_is_open_queries ops 0 eq_refl)). reflexivity.
Defined.

(** The floor hides an unmatched [end_query]: after it, a started query
    stays counted although as many queries ended as started. *)
Example unmatched_end_query_is_forgotten :
  let ops := [OpEndQuery 12 10 true; OpStartQuery 13] in
  well_bracketed 0 ops = false
  /\ started_count ops = len (ended ops)
  /\ active_queries (run ops (init 0)) = 1.
Proof. vm_compute. repeat split. Qed.

Lemma last_n_app_long {A : Type} (n : nat) (older recent : list A) :
  (n <= List.length recent)%nat -> last_n n (older ++ recent) = last_n n recent.
Proof.
  intros H. unfold last_n. rewrite skipn_app, length_app.
  rewrite skipn_all2 by lia. cbn [app]. f_equal. lia.
Qed.

Lemma last_n_last_n_app {A : Type} (n : nat) (l r : list A) :
  last_n n (last_n n l ++ r) = last_n n (l ++ r).
Proof.
  destruct (Nat.le_gt_cases (List.length l) n) as [Hle | Hgt].
  - rewrite (last_n_all n l Hle). reflexivity.
  - rewrite (last_n_split n l) at 2. rewrite <- app_assoc.
    symmetry. apply last_n_app_long.
    rewrite length_app, last_n_length. lia.
Qed.

Lemma step_response_times (op : Op) (self : PerformanceMonitor) :
  last_n 100 (response_times (step self op))
  = last_n 100 (response_times self ++ map elapsed_of (end_call op)).
Proof.
  destruct op as [now | now st success | t]; cbn [step end_call map].
  - cbn. rewrite app_nil_r. reflexivity.
  - rewrite end_query_response_times.
    change (elapsed_of (now, st, success)) with (now - st)%Q.
    generalize (response_times self ++ [(now - st)%Q])%list. intros l.
    apply last_n_all. rewrite last_n_length. lia.
  - rewrite (proj2 (proj2 (proj2
               (collect_metrics_pass_counters (tick_now1 t) (tick_now2 t)
                  (tick_cpu t) (tick_mem t) (tick_out t) self)))).
    rewrite app_nil_r. reflexivity.
Qed.

Lemma run_response_times (ops : list Op) (self : PerformanceMonitor) :
  last_n 100 (response_times (run ops self))
  = last_n 100 (response_times self ++ map elapsed_of (ended ops)).
Proof.
  revert self. induction ops as [|op ops IH]; intros self.
  - cbn. rewrite app_nil_r. reflexivity.
  - change (run (op :: ops) self) with (run ops (step self op)).
    change (ended (op :: ops)) with (end_call op ++ ended ops)%list.
    rewrite IH, map_app, app_assoc.
    rewrite <- last_n_last_n_app, step_response_times, last_n_last_n_app.
    reflexivity.
Qed.

(** X3. In every state a fresh monitor reaches, [response_times] is the
    elapsed times of the last 100 [end_query] calls, oldest first: the
    calls before those are the ones that were dropped. *)
Theorem response_times_are_last_hundred (ops : list Op) (created : Z) :
  response_times (run ops (init created))
  = last_n 100 (map elapsed_of (ended ops)).
Proof.
  change (map elapsed_of (ended ops))
    with (response_times (init created) ++ map elapsed_of (ended ops))%list.
  rewrite <- (run_response_times ops (init created)).
  symmetry. apply last_n_all.
  exact (proj2 (proj2 (run_invariant ops (init created)
                         (conj (Z.le_refl 0) (conj (Z.le_refl 0) (Nat.le_0_l 100)))))).
Qed.

Lemma collect_metrics_pass_flags now1 now2 cpu mem out (self : PerformanceMonitor) :
  let self' := fst (collect_metrics_pass now1 now2 cpu mem out self) in
  start_time self' = start_time self /\ monitoring self' = monitoring self.
Proof.
  unfold collect_metrics_pass.
  destruct cpu as [e|c]; [destruct out; cbn; auto|].
  destruct mem as [e|m]; [destruct out; cbn; auto|].
  cbn. auto.
Qed.

(** X4. The sampler loop, however long it runs and whatever [psutil] and
    [print] do, changes nothing but [metrics_history]: the counters, the
    response times, the creation time and the flag that stops it stay as
    they are. *)
Theorem collect_metrics_only_samples (ticks : list Tick) (self : PerformanceMonitor) :
  let self' := collect_metrics ticks self in
  active_queries self' = active_queries self
  /\ total_queries self' = total_queries self
  /\ failed_queries self' = failed_queries self
  /\ response_times self' = response_times self
  /\ start_time self' = start_time self
  /\ monitoring self' = monitoring self.
Proof.
  cbv zeta.
  revert self. induction ticks as [|t ticks IH]; intros self; cbn [collect_metrics].
  - repeat split.
  - destruct (monitoring self) eqn:Hon; [|rewrite Hon; repeat split].
    assert (Hc := collect_metrics_pass_counters (tick_now1 t) (tick_now2 t)
                    (tick_cpu t) (tick_mem t) (tick_out t) self).
    assert (Hf := collect_metrics_pass_flags (tick_now1 t) (tick_now2 t)
                    (tick_cpu t) (tick_mem t) (tick_out t) self).
    destruct (collect_metrics_pass _ _ _ _ _ self) as [self1 pass].
    cbn [fst] in Hc, Hf.
    destruct Hc as (Ha & Ht & Hfl & Hr). destruct Hf as (Hs & Hm).
    destruct pass as [seconds printed | e].
    + specialize (IH self1).
      destruct IH as (Ia & It & If & Ir & Is & Im).
      rewrite Ia, It, If, Ir, Is, Im. repeat split; congruence.
    + repeat split; congruence.
Qed.

(** *** The length of [metrics_history] *)

(** The sleep at the end of a pass, in microseconds: [time.sleep(30)]. *)
Definition pass_period : Z := 30 * 1000000.

(** The passes of a run. *)
Definition pass_of (op : Op) : list Tick :=
  match op with
  | OpCollect t => [t]
  | _ => []
  end.

Definition passes (ops : list Op) : list Tick := flat_map pass_of ops.

(** The clock behind the passes does what the sleep implies: inside a pass
    the second reading is not before the first, and a pass starts at least
    30 seconds after the one before it started. *)
Fixpoint paced (previous : option Z) (ticks : list Tick) : bool :=
  match ticks with
  | [] => true
  | t :: rest =>
      (tick_now1 t <=? tick_now2 t)
      && match previous with
         | None => true
         | Some p => p + pass_period <=? tick_now1 t
         end
      && paced (Some (tick_now1 t)) rest
  end.

(** Each timestamp is at least a period before all later ones. *)
Fixpoint spaced (l : list Z) : Prop :=
  match l with
  | [] => True
  | x :: rest => Forall (fun y => x + pass_period <= y) rest /\ spaced rest
  end.

Lemma spaced_snoc (l : list Z) (y : Z) :
  spaced l -> Forall (fun x => x + pass_period <= y) l -> spaced (l ++ [y]).
Proof.
  induction l as [|x l IH]; intros Hs Hall; cbn.
  - split; [constructor | exact I].
  - destruct Hs as [Hx Hs]. inversion Hall as [|? ? Hxy Hrest]; subst. split.
    + apply Forall_app. split; [exact Hx | constructor; [exact Hxy | constructor]].
    + apply IH; assumption.
Qed.

Lemma Forall_filter_keep {A : Type} (P : A -> Prop) (f : A -> bool) (l : list A) :
  Forall P l -> Forall P (filter f l).
Proof.
  intros H. apply Forall_forall. intros x Hx. apply filter_In in Hx.
  rewrite Forall_forall in H. apply H. tauto.
Qed.

Lemma spaced_filter (f : Z -> bool) (l : list Z) : spaced l -> spaced (filter f l).
Proof.
  induction l as [|x l IH]; intros Hs; cbn; [exact I|].
  destruct Hs as [Hx Hs]. destruct (f x); cbn.
  - split; [apply Forall_filter_keep; exact Hx | apply IH; exact Hs].
  - apply IH; exact Hs.
Qed.

Lemma spaced_span (l : list Z) (x hi : Z) :
  spaced (x :: l) -> Forall (fun y => y <= hi) (x :: l) ->
  x + pass_period * Z.of_nat (List.length l) <= hi.
Proof.
  revert x. induction l as [|y l IH]; intros x Hs Hhi.
  - inversion Hhi; subst. cbn. lia.
  - destruct Hs as [Hx Hs]. inversion Hx as [|? ? Hxy _]; subst.
    inversion Hhi as [|? ? _ Hrest]; subst.
    specialize (IH y Hs Hrest). cbn [List.length]. lia.
Qed.

(** What a run with a paced clock keeps true of the timestamps in the
    history; [previous] is the first reading of the last pass. *)
Definition history_kept (previous : option Z) (self : PerformanceMonitor) : Prop :=
  let stamps := map timestamp (metrics_history self) in
  spaced stamps
  /\ match previous with
     | None => stamps = []
     | Some p => Forall (fun y => y <= p) stamps
     end
  /\ (List.length stamps <= 120)%nat.

Lemma pass_history_kept (t : Tick) (previous : option Z) (self : PerformanceMonitor) :
  tick_now1 t <= tick_now2 t ->
  match previous with None => True | Some p => p + pass_period <= tick_now1 t end ->
  history_kept previous self ->
  history_kept (Some (tick_now1 t))
    (fst (collect_metrics_pass (tick_now1 t) (tick_now2 t) (tick_cpu t)
            (tick_mem t) (tick_out t) self)).
Proof.
  intros H12 Hprev (Hs & Hb & Hl).
  assert (Hold : Forall (fun y => y + pass_period <= tick_now1 t)
                   (map timestamp (metrics_history self))).
  { destruct previous as [p|].
    - eapply Forall_impl; [|exact Hb]. intros y Hy. cbv beta in Hy. lia.
    - rewrite Hb. constructor. }
  assert (Hunchanged : history_kept (Some (tick_now1 t)) self).
  { split; [exact Hs|]. split; [|exact Hl].
    eapply Forall_impl; [|exact Hold]. intros y Hy. cbv beta in Hy.
    unfold pass_period in Hy. lia. }
  unfold collect_metrics_pass.
  destruct (tick_cpu t) as [e|c]; [destruct (tick_out t); exact Hunchanged|].
  destruct (tick_mem t) as [e|m]; [destruct (tick_out t); exact Hunchanged|].
  cbn [fst].
  unfold history_kept, set_metrics_history. cbv zeta. cbn [metrics_history].
  pose (keep := fun ts : Z => tick_now2 t - one_hour <? ts).
  match goal with |- context [filter ?f ?l] =>
    change (filter f l) with (filter (fun a => keep (timestamp a)) l) end.
  rewrite <- (filter_map_swap keep timestamp), map_app. cbn [map timestamp].
  set (stamps := (map timestamp (metrics_history self) ++ [tick_now1 t])%list).
  assert (Hsp : spaced stamps) by (apply spaced_snoc; assumption).
  assert (Hle : Forall (fun y => y <= tick_now1 t) stamps).
  { apply Forall_app. split.
    - eapply Forall_impl; [|exact Hold]. intros y Hy. cbv beta in Hy.
      unfold pass_period in Hy. lia.
    - constructor; [lia | constructor]. }
  assert (Hsp' := spaced_filter keep stamps Hsp).
  assert (Hle' := Forall_filter_keep _ keep stamps Hle).
  split; [exact Hsp'|]. split; [exact Hle'|].
  destruct (filter keep stamps) as [|x rest] eqn:Hkept; [cbn; lia|].
  assert (Hx : keep x = true).
  { assert (Hin : In x (filter keep stamps)) by (rewrite Hkept; left; reflexivity).
    apply filter_In in Hin. tauto. }
  unfold keep in Hx. apply Z.ltb_lt in Hx.
  assert (Hspan := spaced_span rest x (tick_now1 t) Hsp' Hle').
  unfold pass_period, one_hour in *. cbn [List.length]. lia.
Qed.

Lemma run_history_kept (ops : list Op) (previous : option Z) (self : PerformanceMonitor) :
  paced previous (passes ops) = true ->
  history_kept previous self ->
  (List.length (metrics_history (run ops self)) <= 120)%nat.
Proof.
  revert previous self. induction ops as [|op ops IH]; intros previous self Hp Hk.
  - cbn. destruct Hk as (_ & _ & Hl). rewrite length_map in Hl. exact Hl.
  - change (run (op :: ops) self) with (run ops (step self op)).
    destruct op as [now | now st success | t].
    + apply (IH previous); [exact Hp | exact Hk].
    + apply (IH previous); [exact Hp|].
      unfold history_kept. cbn [step].
      rewrite (proj2 (proj2 (proj2 (end_query_fields now st success self)))).
      exact Hk.
    + change (passes (OpCollect t :: ops)) with (t :: passes ops) in Hp.
      cbn [paced] in Hp.
      apply andb_true_iff in Hp. destruct Hp as [Hp Hrest].
      apply andb_true_iff in Hp. destruct Hp as [H12 Hprev].
      apply Z.leb_le in H12.
      apply (IH (Some (tick_now1 t))); [exact Hrest|].
      cbn [step]. apply (pass_history_kept t previous); [exact H12 | | exact Hk].
      destruct previous as [p|]; [apply Z.leb_le; exact Hprev | exact I].
Qed.

(** X5. With a clock that advances as the sleeps say, [metrics_history] never
    holds more than 120 samples: passes start at least 30 seconds apart,
    and a trim keeps the samples of less than one hour. *)
Theorem metrics_history_at_most_120 (ops : list Op) (created : Z) :
  paced None (passes ops) = true ->
  (List.length (metrics_history (run ops (init created))) <= 120)%nat.
Proof.
  intros Hp. apply (run_history_kept ops None (init created) Hp).
  repeat split. cbn. lia.
Qed.

(** A pass every [period] microseconds, [count] of them, all answered. *)
Definition regular_passes (period : Z) (count : nat) : list Op :=
  map (fun n => let now := period * Z.of_nat n in
                OpCollect (mkTick now now (inr 5%Q) (inr 40%Q) None))
      (seq 0 count).

Lemma metrics_history_at_most_120_witness :
  (List.length (metrics_history (run (regular_passes 30000000 130) (init 0))) <= 120)%nat.
Proof.
  apply (metrics_history_at_most_120 (regular_passes 30000000 130) 0).
  vm_compute. reflexivity.
Defined.

(** The bound is reached with a pass every 30 seconds, and it is the
    pacing that gives it: passes 20 seconds apart fill the hour with 180
    samples. *)
Example metrics_history_bound_is_sharp :
  List.length (metrics_history (run (regular_passes 30000000 130) (init 0))) = 120%nat
  /\ List.length (metrics_history (run (regular_passes 20000000 200) (init 0))) = 180%nat.
Proof. vm_compute. split; reflexivity. Qed.

(** *** The snapshot of [get_current_stats] *)

Lemma ratio_of_counts (a b : Z) :
  0 < b -> 0 <= a <= b ->
  (0 <= inject_Z a / inject_Z b <= 1)%Q
  /\ ((inject_Z a / inject_Z b == 1)%Q <-> a = b)
  /\ ((inject_Z a / inject_Z b == 0)%Q <-> a = 0).
Proof.
  intros Hb Ha. destruct b as [|p|p]; try lia.
  unfold Qdiv, Qinv, Qmult, Qle, Qeq, inject_Z. cbn.
  rewrite ?Z.mul_1_r. tauto.
Qed.

Lemma run_failed_nonneg (ops : list Op) (created : Z) :
  0 <= failed_queries (run ops (init created)) <= total_queries (run ops (init created)).
Proof.
  split.
  - rewrite (proj2 (run_counters ops (init created))). cbn. unfold len. lia.
  - exact (proj1 (proj2 (run_invariant ops (init created)
                           (conj (Z.le_refl 0) (conj (Z.le_refl 0) (Nat.le_0_l 100)))))).
Qed.

(** X6. In every state a fresh monitor reaches, the snapshot's [success_rate]
    lies between 0 and 1; it is 1 exactly when at least one query ended and
    none failed, so it is 0, not 1, as long as no query has ended. *)
Theorem success_rate_of_snapshot (ops : list Op) (created now : Z)
    (clock : nat -> Q) (c m : Q) :
  exists s,
    get_current_stats now clock (inr c) (inr m) (run ops (init created)) = inr s
    /\ (0 <= stats_success_rate s <= 1)%Q
    /\ ((stats_success_rate s == 1)%Q
        <-> 0 < stats_total_queries s /\ stats_failed_queries s = 0)
    /\ (stats_total_queries s = 0 -> (stats_success_rate s == 0)%Q).
Proof.
  eexists. split; [reflexivity|].
  cbn [stats_success_rate stats_total_queries stats_failed_queries].
  unfold current_success_rate.
  assert (Hf := run_failed_nonneg ops created).
  set (T := total_queries (run ops (init created))) in *.
  set (F := failed_queries (run ops (init created))) in *.
  destruct (ratio_of_counts (T - F) (Z.max T 1)) as (Hb & H1 & H0); [lia | lia |].
  split; [exact Hb|]. split.
  - rewrite H1. lia.
  - intros HT. apply H0. lia.
Qed.

Lemma last_n_In {A : Type} (n : nat) (l : list A) (x : A) :
  In x (last_n n l) -> In x l.
Proof. intros H. rewrite (last_n_split n l). apply in_or_app. right. exact H. Qed.

(** X8. [get_performance_history] returns the most recent samples, at most 20
    of them, in the order of the history; in every state a fresh monitor
    reaches, each was taken less than one hour before the last trim. *)
Theorem performance_history_is_recent (ops : list Op) (created : Z) :
  let self := run ops (init created) in
  (List.length (get_performance_history self) <= 20)%nat
  /\ (exists older,
        metrics_history self = (older ++ get_performance_history self)%list)
  /\ Forall (fresh_at (last_trim ops)) (get_performance_history self).
Proof.
  intros self. unfold get_performance_history. split; [|split].
  - rewrite last_n_length. lia.
  - eexists. apply last_n_split.
  - apply Forall_forall. intros x Hx. apply last_n_In in Hx.
    assert (H := run_fresh ops None (init created) (Forall_nil _)).
    rewrite Forall_forall in H. exact (H x Hx).
Qed.

Lemma queries_per_minute_zero_witness :
  exists s,
    get_current_stats 1700000002000000 (fun _ => 1700000002%Q) (inr 5%Q) (inr 40%Q)
      (run one_query (init 1699999999000000)) = inr s
    /\ queries_per_minute s = 0.
Proof.
  apply (queries_per_minute_zero 1700000002000000 (fun _ => 1700000002%Q) 5 40
           (run one_query (init 1699999999000000))).
  intros j d [<- | []]. vm_compute. discriminate.
Defined.

End MonitorRuns.

(** ** The values the confidence score takes *)

Module ScoreValues.
Import Py PyFacts RoundFacts Rag RagFacts Binary64Facts.

Lemma Qfloor_unique (x : Q) (z : Z) :
  (inject_Z z <= x)%Q -> (x < inject_Z z + 1)%Q -> Qfloor x = z.
Proof.
  intros Hlo Hhi.
  assert (H1 := Qfloor_le x). assert (H2 := Qlt_floor x).
  assert (Ha : (inject_Z z < inject_Z (Qfloor x + 1))%Q) by lra.
  assert (Hb : (inject_Z (Qfloor x) < inject_Z (z + 1))%Q).
  { rewrite inject_Z_plus. change (inject_Z 1) with 1%Q. lra. }
  rewrite <- Zlt_Qlt in Ha, Hb. lia.
Qed.

Lemma round_half_even_down (x : Q) (z : Z) :
  (inject_Z z <= x)%Q -> (x < inject_Z z + (1 # 2))%Q -> round_half_even x = z.
Proof.
  intros Hlo Hhi. unfold round_half_even.
  rewrite (Qfloor_unique x z) by lra.
  assert (Hc : ((x - inject_Z z) ?= (1 # 2))%Q = Lt).
  { apply (proj1 (Qlt_alt _ _)). lra. }
  rewrite Hc. reflexivity.
Qed.

Lemma round_half_even_up (x : Q) (z : Z) :
  (inject_Z z + (1 # 2) < x)%Q -> (x < inject_Z z + 1)%Q -> round_half_even x = z + 1.
Proof.
  intros Hlo Hhi. unfold round_half_even.
  rewrite (Qfloor_unique x z) by lra.
  assert (Hc : ((x - inject_Z z) ?= (1 # 2))%Q = Gt).
  { apply (proj1 (Qgt_alt _ _)). lra. }
  rewrite Hc. reflexivity.
Qed.

(** The third of the document count, in hundredths: 0.33, 0.67, and 1.00
    from three documents on. *)
Definition base_hundredths (count : nat) : Z :=
  match count with
  | 1%nat => 33
  | 2%nat => 67
  | _ => 100
  end.

Lemma specified_hundredths_value (count matches : nat) :
  (1 <= count)%nat ->
  specified_hundredths count matches
  = Z.min 100 (base_hundredths count + 10 * Z.of_nat matches).
Proof.
  intros Hcount. unfold specified_hundredths.
  set (K := inject_Z (Z.of_nat matches)).
  assert (HK : (0 <= K)%Q) by apply inject_nat_nonneg.
  assert (Hten : (inject_Z (10 * Z.of_nat matches) == 10 * K)%Q).
  { rewrite inject_Z_mult. reflexivity. }
  destruct count as [|[|[|count]]]; [lia| | |].
  - (* one document *)
    change (inject_Z (Z.of_nat 1) / 3)%Q with (1 # 3)%Q.
    assert (Hb : (Qmin (1 # 3) 1 == 1 # 3)%Q) by (apply Q.min_l; lra).
    cbn [base_hundredths].
    destruct (le_gt_dec matches 6) as [Hle | Hgt].
    + assert (HK6 : (K <= 6)%Q).
      { unfold K. change 6%Q with (inject_Z 6). rewrite <- Zle_Qle. lia. }
      assert (Hm : (Qmin (Qmin (1 # 3) 1 + (1 # 10) * K) 1 == (1 # 3) + (1 # 10) * K)%Q).
      { rewrite Hb. apply Q.min_l. lra. }
      rewrite Z.min_r by lia.
      apply round_half_even_down;
        rewrite Hm, inject_Z_plus, Hten; change (inject_Z 33) with 33%Q; lra.
    + assert (HK7 : (7 <= K)%Q).
      { unfold K. change 7%Q with (inject_Z 7). rewrite <- Zle_Qle. lia. }
      assert (Hm : (Qmin (Qmin (1 # 3) 1 + (1 # 10) * K) 1 == 1)%Q).
      { rewrite Hb. apply Q.min_r. lra. }
      rewrite Z.min_l by lia.
      rewrite (round_half_even_comp _ (inject_Z 100)).
      * apply round_half_even_integer.
      * rewrite Hm. reflexivity.
  - (* two documents *)
    change (inject_Z (Z.of_nat 2) / 3)%Q with (2 # 3)%Q.
    assert (Hb : (Qmin (2 # 3) 1 == 2 # 3)%Q) by (apply Q.min_l; lra).
    cbn [base_hundredths].
    destruct (le_gt_dec matches 3) as [Hle | Hgt].
    + assert (HK3 : (K <= 3)%Q).
      { unfold K. change 3%Q with (inject_Z 3). rewrite <- Zle_Qle. lia. }
      assert (Hm : (Qmin (Qmin (2 # 3) 1 + (1 # 10) * K) 1 == (2 # 3) + (1 # 10) * K)%Q).
      { rewrite Hb. apply Q.min_l. lra. }
      rewrite Z.min_r by lia.
      replace (67 + 10 * Z.of_nat matches) with (66 + 10 * Z.of_nat matches + 1) by lia.
      apply round_half_even_up;
        rewrite Hm, inject_Z_plus, Hten; change (inject_Z 66) with 66%Q; lra.
    + assert (HK4 : (4 <= K)%Q).
      { unfold K. change 4%Q with (inject_Z 4). rewrite <- Zle_Qle. lia. }
      assert (Hm : (Qmin (Qmin (2 # 3) 1 + (1 # 10) * K) 1 == 1)%Q).
      { rewrite Hb. apply Q.min_r. lra. }
      rewrite Z.min_l by lia.
      rewrite (round_half_even_comp _ (inject_Z 100)).
      * apply round_half_even_integer.
      * rewrite Hm. reflexivity.
  - (* three documents or more *)
    cbn [base_hundredths]. rewrite Z.min_l by lia.
    set (N := inject_Z (Z.of_nat (S (S (S count))))).
    assert (HN : (3 <= N)%Q).
    { unfold N. change 3%Q with (inject_Z 3). rewrite <- Zle_Qle. lia. }
    assert (Hb : (Qmin (N / 3) 1 == 1)%Q) by (apply Q.min_r; thirds; lra).
    assert (Hm : (Qmin (Qmin (N / 3) 1 + (1 # 10) * K) 1 == 1)%Q).
    { rewrite Hb. apply Q.min_r. lra. }
    rewrite (round_half_even_comp _ (inject_Z 100)).
    + apply round_half_even_integer.
    + rewrite Hm. reflexivity.
Qed.

Lemma confidence_value (documents : list Document) (question : string) :
  documents <> [] ->
  calculate_confidence documents question
  = Qmake (Z.min 100 (base_hundredths (List.length documents)
                      + 10 * Z.of_nat (matching_pairs documents question))) 100.
Proof.
  intros Hne.
  assert (Hlen : (1 <= List.length documents)%nat).
  { destruct documents; [congruence | cbn; lia]. }
  rewrite (calculate_confidence_specified documents question Hne).
  rewrite specified_confidence_hundredths, specified_hundredths_value by exact Hlen.
  reflexivity.
Qed.

Lemma confidence_at_least_third (documents : list Document) (question : string) :
  documents <> [] -> (33 # 100 <= calculate_confidence documents question)%Q.
Proof.
  intros Hne. rewrite (confidence_value documents question Hne).
  unfold Qle. cbn [Qnum Qden].
  destruct (List.length documents) as [|[|[|n]]]; cbn [base_hundredths]; lia.
Qed.

(** X10. The score of one document is 0.33 plus a tenth for each keyword in
    both texts, the score of two is 0.67 plus a tenth for each pair, both
    cut at 1.00; from three documents on the score is 1.00 whatever the
    question and the texts are. *)
Theorem confidence_table (documents : list Document) (question : string) :
  documents <> [] ->
  calculate_confidence documents question
  = Qmake (Z.min 100 (base_hundredths (List.length documents)
                      + 10 * Z.of_nat (matching_pairs documents question))) 100
  /\ ((3 <= List.length documents)%nat ->
      calculate_confidence documents question = (100 # 100)%Q)
  /\ (33 # 100 <= calculate_confidence documents question)%Q.
Proof.
  intros Hne.
  assert (Hv := confidence_value documents question Hne).
  split; [exact Hv|]. split.
  - intros H3. rewrite Hv.
    destruct (List.length documents) as [|[|[|n]]]; try lia.
    cbn [base_hundredths]. rewrite Z.min_l by lia. reflexivity.
  - apply confidence_at_least_third. exact Hne.
Qed.

(** Rounding to two decimals with a tie going up: [floor(100 x + 1/2)]
    hundredths. *)
Definition round_half_up_2 (x : Q) : Q := Qmake (Qfloor (x * 100 + (1 # 2))) 100.

(** X11. The score does not depend on how [round] resolves a tie: rounding
    half up gives the same value for every question and every documents. *)
Theorem confidence_same_with_half_up (documents : list Document) (question : string) :
  calculate_confidence documents question
  = match documents with
    | [] => 0%Q
    | _ => round_half_up_2 (unrounded_confidence documents question)
    end.
Proof.
  destruct documents as [|doc rest]; [reflexivity|].
  unfold calculate_confidence, round_half_up_2. rewrite round_2. f_equal.
  set (x := (unrounded_confidence (doc :: rest) question * 100)%Q).
  assert (Hm := score_margin (doc :: rest) question (Qfloor x)). fold x in Hm.
  assert (H1 := Qfloor_le x). assert (H2 := Qlt_floor x).
  rewrite inject_Z_plus in H2. change (inject_Z 1) with 1%Q in H2.
  destruct Hm as [Hlow | Hhigh].
  - rewrite (round_half_even_down x (Qfloor x)) by lra.
    symmetry. apply Qfloor_unique; lra.
  - rewrite (round_half_even_up x (Qfloor x)) by lra.
    symmetry. apply Qfloor_unique.
    + rewrite inject_Z_plus. change (inject_Z 1) with 1%Q. lra.
    + rewrite inject_Z_plus. change (inject_Z 1) with 1%Q. lra.
Qed.

Lemma matching_pairs_permutation (documents documents' : list Document) (question : string) :
  Permutation documents documents' ->
  matching_pairs documents question = matching_pairs documents' question.
Proof.
  intros H. induction H as [| doc l l' _ IH | a b l | l l' l'' _ IH1 _ IH2].
  - reflexivity.
  - rewrite !matching_pairs_cons, IH. reflexivity.
  - rewrite !matching_pairs_cons. lia.
  - congruence.
Qed.

(** X12. The score does not depend on the order in which retrieval returned the
    documents. *)
Theorem confidence_ignores_order (documents documents' : list Document) (question : string) :
  Permutation documents documents' ->
  calculate_confidence documents question = calculate_confidence documents' question.
Proof.
  intros H.
  destruct documents as [|doc rest].
  - apply Permutation_nil in H. subst. reflexivity.
  - destruct documents' as [|doc' rest'].
    + apply Permutation_sym, Permutation_nil in H. discriminate.
    + rewrite !calculate_confidence_specified by discriminate.
      unfold specified_confidence, len.
      rewrite (Permutation_length H), (matching_pairs_permutation _ _ question H).
      reflexivity.
Qed.

End ScoreValues.

(** ** The other paths of [query], and queries one after the other *)

Module QueryPaths.
Import Py PyFacts RoundFacts Rag RagFacts QueryFacts ScoreValues.

(** The chain answers: its text is stripped. *)
Lemma generate_answers (env : Env) (context question response : string) (w : World) :
  llm_type env <> mock ->
  chain_run env context question = inr response ->
  generate env context question w
  = (inr (strip response),
     mkWorld (performance_monitor w) (journal w ++ [EvChainRun context question])
       (time_calls w) (print_calls w)).
Proof.
  intros Hllm Hrun. unfold generate.
  destruct (llm_type env); try congruence;
    unfold try_except, bind, emit, ret; rewrite Hrun; reflexivity.
Qed.

(** No LLM: the template is the answer, and the chain is not called. *)
Lemma generate_mock (env : Env) (context question : string) (w : World) :
  llm_type env = mock ->
  generate env context question w
  = (inr (mock_llm_response context question),
     mkWorld (performance_monitor w) (journal w ++ [EvMockLlmResponse])
       (time_calls w) (print_calls w)).
Proof. intros Hllm. unfold generate. rewrite Hllm. reflexivity. Qed.

(** X14. When retrieval returns at least one document and the chain returns a
    text, [query] answers with that text stripped of surrounding white
    space, scores the documents, returns their metadata and the preview of
    the context, and tells the monitor [end_query] with [success=True];
    nothing is logged as an error and the template is not used. *)
Theorem query_answers_from_chain (env : Env) (question : string) (k : Z)
    (w : World) (response : string) :
  stdout_works env ->
  retrieved env question k <> [] ->
  llm_type env <> mock ->
  chain_run env (prepare_context (retrieved env question k)) question = inr response ->
  let documents := retrieved env question k in
  let context := prepare_context documents in
  let t0 := start_reading env w in
  let elapsed := (time_time env (S (time_calls w)) - t0)%Q in
  exists w',
    query env question k w
    = (inr (mkOutcome (strip response)
              (map metadata documents)
              (calculate_confidence documents question)
              elapsed
              (Some (context_preview context))), w')
    /\ performance_monitor w'
       = Monitor.end_query (time_time env (S (S (time_calls w)))) t0 true
           (snd (Monitor.start_query t0 (performance_monitor w)))
    /\ journal w'
       = (journal w
          ++ [EvStartQuery t0;
              EvLogSystemEvent "query_started"
                [("query_length", Z.of_nat (String.length question))];
              EvPrint ("Processing query: " ++ question)]
          ++ retrieval_events env question k
          ++ [EvPrepareContext;
              EvChainRun context question;
              EvCalculateConfidence;
              EvEndQuery t0 true;
              EvLogQuery (take 100 question) elapsed
                (calculate_confidence documents question) (len documents) true])%list.
Proof.
  intros Hout Hsome Hllm Hrun documents context t0 elapsed.
  rewrite query_unfold. unfold try_except, query_body.
  do 3 run_statement Hout.
  rewrite (match_nonempty _ _ _ Hsome).
  run_statement Hout.
  erewrite bind_run; [| apply (generate_answers env _ _ response); assumption ].
  do 4 run_statement Hout.
  unfold ret. eexists. split; [reflexivity|].
  cbn [performance_monitor journal record started].
  split; [reflexivity|].
  rewrite <- !app_assoc. reflexivity.
Qed.

(** X15. With [llm_type] "mock" the chain is never called, whatever it would
    do: the answer is the template, and the query counts as a success. *)
Theorem query_answers_without_llm (env : Env) (question : string) (k : Z) (w : World) :
  stdout_works env ->
  retrieved env question k <> [] ->
  llm_type env = mock ->
  let documents := retrieved env question k in
  let context := prepare_context documents in
  let t0 := start_reading env w in
  let elapsed := (time_time env (S (time_calls w)) - t0)%Q in
  exists w',
    query env question k w
    = (inr (mkOutcome (mock_llm_response context question)
              (map metadata documents)
              (calculate_confidence documents question)
              elapsed
              (Some (context_preview context))), w')
    /\ performance_monitor w'
       = Monitor.end_query (time_time env (S (S (time_calls w)))) t0 true
           (snd (Monitor.start_query t0 (performance_monitor w)))
    /\ journal w'
       = (journal w
          ++ [EvStartQuery t0;
              EvLogSystemEvent "query_started"
                [("query_length", Z.of_nat (String.length question))];
              EvPrint ("Processing query: " ++ question)]
          ++ retrieval_events env question k
          ++ [EvPrepareContext;
              EvMockLlmResponse;
              EvCalculateConfidence;
              EvEndQuery t0 true;
              EvLogQuery (take 100 question) elapsed
                (calculate_confidence documents question) (len documents) true])%list.
Proof.
  intros Hout Hsome Hllm documents context t0 elapsed.
  rewrite query_unfold. unfold try_except, query_body.
  do 3 run_statement Hout.
  rewrite (match_nonempty _ _ _ Hsome).
  run_statement Hout.
  erewrite bind_run; [| apply (generate_mock env); assumption ].
  do 4 run_statement Hout.
  unfold ret. eexists. split; [reflexivity|].
  cbn [performance_monitor journal record started].
  split; [reflexivity|].
  rewrite <- !app_assoc. reflexivity.
Qed.

(** *** What a query leaves in the monitor *)

Ltac settle_monitor :=
  match goal with
  | |- context [Monitor.end_query ?a ?b ?c ?d] =>
      let Ha := fresh "Ha" in
      let Ht := fresh "Ht" in
      let Hf := fresh "Hf" in
      destruct (MonitorFacts.end_query_fields a b c d) as (Ha & Ht & Hf & _);
      rewrite ?Ha, ?Ht, ?Hf;
      cbn [Monitor.active_queries Monitor.total_queries Monitor.failed_queries
           Monitor.set_active_queries]
  end.

(** The counters after a query, whatever happens in it. *)
Lemma query_counters (env : Env) (question : string) (k : Z) (w : World) :
  exists o w',
    query env question k w = (inr o, w')
    /\ Monitor.total_queries (performance_monitor w')
       = Monitor.total_queries (performance_monitor w) + 1
    /\ Monitor.active_queries (performance_monitor w')
       = Z.max 0 (Monitor.active_queries (performance_monitor w))
    /\ Monitor.failed_queries (performance_monitor w)
       <= Monitor.failed_queries (performance_monitor w')
       <= Monitor.failed_queries (performance_monitor w) + 1.
Proof.
  destruct (query env question k w) as [[e|o] w'] eqn:H.
  - exfalso. execute_query H; discriminate.
  - execute_query H; try discriminate;
      injection H as <- <-;
      eexists; eexists;
      (split; [reflexivity|]);
      cbn [performance_monitor];
      settle_monitor;
      repeat split; lia.
Qed.

(** X16. Whatever the clock, the output, the store and the chain do, a query
    adds one to [total_queries] and leaves [active_queries] where it was
    (at 0 if it was below); and it is counted as failed exactly when its
    outcome has no sources: such an outcome has confidence 0 and no context
    preview, and every other outcome has a confidence of 0.33 or more. *)
Theorem query_accounting (env : Env) (question : string) (k : Z) (w : World) :
  exists o w',
    query env question k w = (inr o, w')
    /\ Monitor.total_queries (performance_monitor w')
       = Monitor.total_queries (performance_monitor w) + 1
    /\ Monitor.active_queries (performance_monitor w')
       = Z.max 0 (Monitor.active_queries (performance_monitor w))
    /\ ((sources o = [] /\ confidence o = 0%Q /\ context_used o = None
         /\ Monitor.failed_queries (performance_monitor w')
            = Monitor.failed_queries (performance_monitor w) + 1)
        \/ (sources o <> [] /\ (33 # 100 <= confidence o)%Q /\ context_used o <> None
            /\ Monitor.failed_queries (performance_monitor w')
               = Monitor.failed_queries (performance_monitor w))).
Proof.
  destruct (query env question k w) as [[e|o] w'] eqn:H.
  - exfalso. execute_query H; discriminate.
  - execute_query H; try discriminate;
      injection H as <- <-;
      eexists; eexists;
      (split; [reflexivity|]);
      cbn [performance_monitor sources confidence context_used];
      settle_monitor;
      (split; [lia|]); (split; [lia|]);
      first
        [ left; repeat split; lia
        | right; cbn [map];
          (split; [discriminate|]);
          (split;
           [match goal with
            | |- (_ <= round (unrounded_confidence ?docs ?q) 2)%Q =>
                apply (confidence_at_least_third docs q); discriminate
            end|]);
          (split; [discriminate | lia]) ].
Qed.

(** The world after the questions were asked one after the other. *)
Fixpoint after_queries (env : Env) (questions : list (string * Z)) (w : World) : World :=
  match questions with
  | [] => w
  | (question, k) :: rest => after_queries env rest (snd (query env question k w))
  end.

(** X18. Queries asked one after the other, whatever happens in each: when no
    query is open at the start, none is open at the end, [total_queries]
    has grown by the number of questions and [failed_queries] by no more
    than that. *)
Theorem queries_in_sequence (env : Env) (questions : list (string * Z)) (w : World) :
  0 <= Monitor.active_queries (performance_monitor w) ->
  let w' := after_queries env questions w in
  Monitor.active_queries (performance_monitor w')
  = Monitor.active_queries (performance_monitor w)
  /\ Monitor.total_queries (performance_monitor w')
     = Monitor.total_queries (performance_monitor w) + len questions
  /\ Monitor.failed_queries (performance_monitor w)
     <= Monitor.failed_queries (performance_monitor w')
     <= Monitor.failed_queries (performance_monitor w) + len questions.
Proof.
  cbv zeta. revert w. induction questions as [|[question k] rest IH]; intros w Hpos.
  - cbn. unfold len. cbn. lia.
  - cbn [after_queries].
    destruct (query_counters env question k w) as (o & w1 & Hq & Ht & Ha & Hf).
    rewrite Hq. cbn [snd].
    assert (Hpos1 : 0 <= Monitor.active_queries (performance_monitor w1)) by lia.
    destruct (IH w1 Hpos1) as (Ia & It & If).
    unfold len in *. cbn [List.length]. rewrite Nat2Z.inj_succ. lia.
Qed.

(** *** [ComplianceVectorStore.search] *)

(** X19. [search] returns nothing or exactly what the store returned; a fault
    of the store never leaves it, only a fault of [print] does.  When the
    line that reports the number of results cannot be printed and the next
    line can, the results the store found are dropped. *)
Theorem search_outcomes (env : Env) (query : string) (k : Z) (w : World) :
  match fst (vector_store_search env query k w) with
  | inr documents =>
      documents = []
      \/ exists similarity_search,
           vector_store env = Some similarity_search
           /\ similarity_search query k = inr documents
  | inl e => exists n, stdout env n = Some e
  end
  /\ (forall similarity_search documents,
        vector_store env = Some similarity_search ->
        similarity_search query k = inr documents ->
        stdout env (print_calls w) <> None ->
        stdout env (S (print_calls w)) = None ->
        fst (vector_store_search env query k w) = inr []).
Proof.
  unfold vector_store_search, try_except, bind, emit, ret, print, record.
  destruct (vector_store env) as [ss|] eqn:Hvs;
    [destruct (ss query k) as [e|documents] eqn:Hss|];
    repeat (cbn [fst print_calls performance_monitor journal time_calls];
            match goal with
            | |- context [match stdout env ?n with _ => _ end] =>
                destruct (stdout env n) eqn:?
            end);
    cbn [fst];
    (split;
     [ first [ left; reflexivity
             | right; exists ss; split; [reflexivity | assumption]
             | eexists; eassumption ]
     | intros ss' documents' Hstore Hfound Hfirst Hsecond; congruence ]).
Qed.

End QueryPaths.

(** ** Statistics, health and document chunks *)

Module ServiceFacts.
Import Py PyFacts Rag QueryFacts Service Processor.

(** Whether the vector store counted at least one document. *)
Definition has_documents (vector_store : option (Fault + Z)) : bool :=
  match vector_store with
  | Some (inr count) => 0 <? count
  | _ => false
  end.

(** X20. [get_system_stats] never raises, also when counting the collection
    does: the dictionary [get_stats] then returns has no "document_count",
    the default 0 stands in for it, and "system_ready" is true exactly when
    the count succeeded and is positive. *)
Theorem system_stats_never_fail (rag : RagSystem) :
  exists stats,
    get_system_stats rag = inr stats
    /\ lookup "system_ready" stats = Some (VBool (has_documents (rag_vector_store rag)))
    /\ lookup "vector_store" stats
       = Some (VDict (get_stats (rag_vector_store rag) (rag_embedding_model rag)))
    /\ (lookup "document_count"
          (get_stats (rag_vector_store rag) (rag_embedding_model rag)) = None
        <-> exists e, rag_vector_store rag = Some (inl e)).
Proof.
  unfold get_system_stats, get_stats, has_documents.
  destruct (rag_vector_store rag) as [[e|count]|]; cbn;
    (eexists; split; [reflexivity|]; split; [reflexivity|]; split; [reflexivity|]);
    split; intros H;
    first [ discriminate H
          | reflexivity
          | exists e; reflexivity
          | destruct H as [e' H]; discriminate H ].
Qed.

(** X21. The answer of the health endpoint: "degraded" with count 0 when no
    store was loaded or the collection is empty, "healthy" with the count
    when it is not, and the error 503 when counting raises, because the
    statistics then lack the "document_count" the endpoint reads.  No
    other status is ever reported. *)
Theorem health_check_table (rag : RagSystem) (uptime_us : Z) :
  health_check (Some rag) uptime_us
  = match rag_vector_store rag with
    | None =>
        inr (mkSystemStatus "degraded" 0 (rag_llm_type rag) capabilities
               (Monitor.uptime_formatted_of uptime_us))
    | Some (inr count) =>
        inr (mkSystemStatus (if count =? 0 then "degraded" else "healthy") count
               (rag_llm_type rag) capabilities
               (Monitor.uptime_formatted_of uptime_us))
    | Some (inl _) => inl (mkHTTPException 503 "System health check failed")
    end.
Proof.
  unfold health_check, health_check_body, get_system_stats, get_stats.
  destruct (rag_vector_store rag) as [[e|count]|]; cbn; try reflexivity.
  destruct (0 <? count) eqn:Hpos; cbn.
  - apply Z.ltb_lt in Hpos.
    destruct (count =? 0) eqn:Hz; [apply Z.eqb_eq in Hz; lia | reflexivity].
  - destruct (count =? 0); reflexivity.
Qed.

(** *** [create_documents] and [process_file] *)

(** The metadata [create_documents] gives the chunk at position [i]. *)
Definition chunk_metadata_at (source : string) (i : nat) : Dict :=
  [("source", VStr source);
   ("chunk_id", VInt (Z.of_nat i));
   ("document_type", VStr "compliance_guide");
   ("language", VStr "en")].

Fixpoint chunks_from (source : string) (i : nat) (chunks : list string) : list Chunk :=
  match chunks with
  | [] => []
  | chunk :: rest =>
      mkChunk chunk (chunk_metadata_at source i) :: chunks_from source (S i) rest
  end.

Lemma create_documents_loop (source : string) (chunks : list string) (start : nat)
    (acc : list Chunk) :
  fold_left
    (fun documents (entry : nat * string) =>
       let (i, chunk) := entry in
       let doc :=
         mkChunk chunk
           [("source", VStr source);
            ("chunk_id", VInt (Z.of_nat i));
            ("document_type", VStr "compliance_guide");
            ("language", VStr "en")] in
       (documents ++ [doc])%list)
    (enumerate_from start chunks) acc
  = (acc ++ chunks_from source start chunks)%list.
Proof.
  revert start acc.
  induction chunks as [|chunk rest IH]; intros start acc;
    cbn [enumerate_from fold_left chunks_from].
  - rewrite app_nil_r. reflexivity.
  - rewrite IH, <- app_assoc. reflexivity.
Qed.

Lemma chunks_from_nth (source : string) (chunks : list string) (start i : nat)
    (chunk : string) :
  nth_error chunks i = Some chunk ->
  nth_error (chunks_from source start chunks) i
  = Some (mkChunk chunk (chunk_metadata_at source (start + i))).
Proof.
  revert start i. induction chunks as [|c rest IH]; intros start i H.
  - destruct i; discriminate.
  - destruct i as [|i]; cbn [nth_error chunks_from] in *.
    + injection H as ->. rewrite Nat.add_0_r. reflexivity.
    + rewrite (IH (S start) i H). rewrite Nat.add_succ_r. reflexivity.
Qed.

Lemma chunks_from_length (source : string) (chunks : list string) (start : nat) :
  List.length (chunks_from source start chunks) = List.length chunks.
Proof.
  revert start. induction chunks as [|c rest IH]; intros start; cbn; [|rewrite IH];
    reflexivity.
Qed.

(** X22. [create_documents] makes one document for each chunk of the splitter,
    in the same order; the document at position [i] (from 0) holds the
    chunk at that position, and its "chunk_id" is [i], so that the ids of
    one file are all different. *)
Theorem create_documents_numbers_chunks (split_text : string -> list string)
    (text source : string) :
  let documents := create_documents split_text text source in
  List.length documents = List.length (split_text text)
  /\ map chunk_content documents = split_text text
  /\ map (fun doc => lookup "chunk_id" (chunk_metadata doc)) documents
     = map (fun i => Some (VInt (Z.of_nat i))) (seq 0 (List.length (split_text text)))
  /\ Forall (fun doc => lookup "source" (chunk_metadata doc) = Some (VStr source))
       documents.
Proof.
  cbv zeta. unfold create_documents, enumerate.
  rewrite create_documents_loop. cbn [app].
  generalize (split_text text). intros chunks. generalize 0%nat. intros start.
  split; [apply chunks_from_length|].
  revert start. induction chunks as [|c rest IH]; intros start; cbn [chunks_from map List.length seq].
  - repeat split. constructor.
  - destruct (IH (S start)) as (Hc & Hi & Hs).
    rewrite Hc, Hi. repeat split. constructor; [reflexivity | exact Hs].
Qed.

(** X23. With a standard output that works, [process_file] does not raise: a
    file that cannot be read, or that is empty, gives no document, and any
    other file gives the documents of [create_documents], with the path as
    their source. *)
Theorem process_file_outcomes (env : Env) (read_file : string -> Fault + string)
    (split_text : string -> list string) (file_path : string) (w : World) :
  stdout_works env ->
  fst (process_file env read_file split_text file_path w)
  = inr match read_file file_path with
        | inl _ => []
        | inr text =>
            if String.eqb text "" then []
            else create_documents split_text text file_path
        end.
Proof.
  intros Hout. unfold process_file, load_text_file.
  rewrite (bind_run _ _ _ _ _ (print_runs env _ w Hout)).
  destruct (read_file file_path) as [e|text].
  - unfold bind at 1. unfold bind at 1.
    rewrite (print_runs env _ _ Hout). unfold ret. cbn. reflexivity.
  - unfold bind at 1. unfold ret at 1.
    destruct (String.eqb text ""); [reflexivity|].
    unfold bind. rewrite (print_runs env _ _ Hout). reflexivity.
Qed.

End ServiceFacts.

(** ** These properties at concrete inputs *)

Module MoreScenarios.
Import Py Rag RagFacts QueryFacts Scenarios ScoreValues Binary64Facts QueryPaths
  Service Processor ServiceFacts.

(** A chain that answers, with white space around the text. *)
Definition answering_llm : Env :=
  mkEnv ticking (fun _ => None)
    (Some (fun _ _ => inr [gst_return_doc; gst_rate_doc]))
    ollama
    (fun _ _ => inr "  The GST rate for restaurants is 5%.  ").

(** No LLM at all; the chain would raise if it were called. *)
Definition no_llm : Env :=
  mkEnv ticking (fun _ => None)
    (Some (fun _ _ => inr [gst_return_doc; gst_rate_doc]))
    mock
    (fun _ _ => inl (mkFault "AttributeError" "no attribute 'chain'")).

Lemma confidence_table_witness :
  calculate_confidence [gst_return_doc; gst_rate_doc] rate_question = (97 # 100)%Q
  /\ calculate_confidence [registration_doc; registration_doc; registration_doc]
       rate_question = (100 # 100)%Q.
Proof.
  split.
  - apply (proj1 (confidence_table [gst_return_doc; gst_rate_doc] rate_question
                    ltac:(discriminate))).
  - apply (proj1 (proj2 (confidence_table
                           [registration_doc; registration_doc; registration_doc]
                           rate_question ltac:(discriminate)))).
    cbn. lia.
Defined.

Lemma confidence_ignores_order_witness :
  calculate_confidence [gst_return_doc; gst_rate_doc] rate_question
  = calculate_confidence [gst_rate_doc; gst_return_doc] rate_question.
Proof.
  apply confidence_ignores_order. apply perm_swap.
Defined.

Lemma binary64_confidence_witness :
  exists h,
    Binary64.rounded_hundredths
      (Binary64.unrounded_confidence 2
         (matching_pairs [gst_return_doc; gst_rate_doc] rate_question)) = Some h
    /\ calculate_confidence [gst_return_doc; gst_rate_doc] rate_question = Qmake h 100.
Proof.
  apply (binary64_confidence [gst_return_doc; gst_rate_doc] rate_question).
  - discriminate.
  - cbn. lia.
Defined.

Lemma query_answers_from_chain_witness :
  exists w',
    query answering_llm rate_question 3 fresh_world
    = (inr (mkOutcome "The GST rate for restaurants is 5%."
              [metadata gst_return_doc; metadata gst_rate_doc]
              (97 # 100)%Q
              (ticking 1 - ticking 0)%Q
              (Some (prepare_context [gst_return_doc; gst_rate_doc]))), w')
    /\ Monitor.total_queries (performance_monitor w') = 1
    /\ Monitor.failed_queries (performance_monitor w') = 0.
Proof.
  destruct (query_answers_from_chain answering_llm rate_question 3 fresh_world
              "  The GST rate for restaurants is 5%.  ")
    as (w' & Hq & Hm & _).
  - intros n. reflexivity.
  - discriminate.
  - discriminate.
  - reflexivity.
  - exists w'. split; [exact Hq|]. rewrite Hm. split; reflexivity.
Defined.

Lemma query_answers_without_llm_witness :
  exists w',
    query no_llm rate_question 3 fresh_world
    = (inr (mkOutcome
              (mock_llm_response
                 (prepare_context [gst_return_doc; gst_rate_doc]) rate_question)
              [metadata gst_return_doc; metadata gst_rate_doc]
              (97 # 100)%Q
              (ticking 1 - ticking 0)%Q
              (Some (prepare_context [gst_return_doc; gst_rate_doc]))), w')
    /\ Monitor.failed_queries (performance_monitor w') = 0.
Proof.
  destruct (query_answers_without_llm no_llm rate_question 3 fresh_world)
    as (w' & Hq & Hm & _).
  - intros n. reflexivity.
  - discriminate.
  - reflexivity.
  - exists w'. split; [exact Hq|]. rewrite Hm. reflexivity.
Defined.

Lemma queries_in_sequence_witness :
  let w' :=
    after_queries unreachable_llm
      [(rate_question, 3); ("How much penalty for late filing?", 3);
       ("What is the deadline?", 5)] fresh_world in
  Monitor.active_queries (performance_monitor w') = 0
  /\ Monitor.total_queries (performance_monitor w') = 3.
Proof.
  intros w'.
  destruct (queries_in_sequence unreachable_llm
              [(rate_question, 3); ("How much penalty for late filing?", 3);
               ("What is the deadline?", 5)] fresh_world (Z.le_refl 0))
    as (Ha & Ht & _).
  split; [exact Ha | exact Ht].
Defined.

(** A file that is not there. *)
Definition no_file (file_path : string) : Fault + string :=
  inl (mkFault "FileNotFoundError" "No such file or directory").

Lemma process_file_outcomes_witness :
  fst (process_file empty_store no_file (fun text => [text])
         "data/raw/sample_gst_info.txt" fresh_world) = inr [].
Proof.
  apply (process_file_outcomes empty_store no_file (fun text => [text])
           "data/raw/sample_gst_info.txt" fresh_world).
  intros n. reflexivity.
Defined.

(** The health endpoint when counting the collection raises, and when the
    collection holds 12 chunks. *)
Example health_of_a_broken_store :
  health_check
    (Some (mkRagSystem (Some (inl (mkFault "RuntimeError" "collection is gone")))
             "SentenceTransformerEmbeddings" "ollama")) 3661000000
  = inl (mkHTTPException 503 "System health check failed")
  /\ health_check
       (Some (mkRagSystem (Some (inr 12)) "SentenceTransformerEmbeddings" "ollama"))
       3661000000
     = inr (mkSystemStatus "healthy" 12 "ollama" capabilities "1:01:01").
Proof. vm_compute. split; reflexivity. Qed.

End MoreScenarios.
